(** * awful.zone: a DNS server that answers with pathological records

    Shallow embedding of [awful.go] and proofs about its four handlers
    ([cnamePitHandler], [manyCutsHandler], [sleepHandler],
    [unknownHandler]) and the helpers [qname] and [txtError].

    Go values are modelled as follows.
    - [string] is a sequence of bytes: Rocq's [string].
    - slices are lists; indexing is [Go.index], which panics out of range.
    - fixed-width integers are [Z] with the wrap-around written out.
    - a handler is a computation in the monad [M]: it threads a [World]
      (a clock and the trace of what the handler did to the outside: log
      lines, sleeps, messages handed to the response writer) and either
      finishes or panics. *)

From Stdlib Require Import ZArith List String Ascii Bool Lia.
Import ListNotations.
Open Scope string_scope.
Open Scope Z_scope.

(** ** The Go runtime: panics, slices, machine integers *)

Module Go.

Inductive RuntimeError :=
| IndexOutOfRange (i : Z) (len : Z).

(** The result of running Go code that may panic. *)
Inductive Outcome (A : Type) :=
| Done (a : A)
| Panic (e : RuntimeError).
Arguments Done {A} a.
Arguments Panic {A} e.

Definition obind {A B} (o : Outcome A) (k : A -> Outcome B) : Outcome B :=
  match o with
  | Done a => k a
  | Panic e => Panic e
  end.

(** [len(s)] *)
Definition len {A} (s : list A) : Z := Z.of_nat (List.length s).

(** [s[i]]: a run-time panic unless [0 <= i < len(s)]. *)
Definition index {A} (s : list A) (i : Z) : Outcome A :=
  if (0 <=? i) && (i <? len s) then
    match nth_error s (Z.to_nat i) with
    | Some a => Done a
    | None => Panic (IndexOutOfRange i (len s))
    end
  else Panic (IndexOutOfRange i (len s)).

(** Conversions to the fixed-width integer types (two's complement). *)
Definition uint64 (z : Z) : Z := z mod 2 ^ 64.
Definition int64 (z : Z) : Z := (z + 2 ^ 63) mod 2 ^ 64 - 2 ^ 63.
Definition uint8 (z : Z) : Z := z mod 2 ^ 8.

(** A byte of a string as a number. *)
Definition byte (c : ascii) : Z := Z.of_N (N_of_ascii c).

End Go.

(** ** package dns (github.com/miekg/dns): messages and records

    [awful.go] imports the library; its declarations are not part of the
    sources.  Below are the ones the program uses.  Fields a Go composite
    literal leaves out hold their zero value. *)

Module dns.

(** Modelled from the spec: the "success" status code, and the codes of
    the query opcode, the Internet class and the four record types (the
    constants [RcodeSuccess], [OpcodeQuery], [ClassINET], [TypeA], ... of
    the DNS library are missing); the values are those of the DNS
    protocol. *)
Definition RcodeSuccess : Z := 0.
Definition OpcodeQuery : Z := 0.
Definition ClassINET : Z := 1.
Definition TypeA : Z := 1.
Definition TypeNS : Z := 2.
Definition TypeCNAME : Z := 5.
Definition TypeTXT : Z := 16.

(** Modelled from the spec: "Query ... {name: domain-name string,
    requested-record-type, requested-class}" ([type Question struct] of
    the DNS library is missing). *)
Module Q.
Record t := mk { Name : string; Qtype : Z; Qclass : Z }.
End Q.

(** Modelled from the spec: what every record carries, "an owner name, a
    type tag, a class" ([type RR_Header struct] of the DNS library is
    missing; it also has a TTL and a data length, which the program
    leaves at zero). *)
Record RR_Header := mkHdr {
  Name : string;
  Rrtype : Z;
  Class : Z;
  Ttl : Z;
  Rdlength : Z
}.

(** [net.IP] is a byte slice; [nil] is what [net.ParseIP] returns for
    text that is not an address. *)
Definition IP := option (list Z).

(** Modelled from the spec: "ResponseRecord: one of {CNAME-record,
    NS-record, A-record, TXT-record}, each carrying ... type-specific data
    (target name, address, text payload)" (the types [CNAME], [NS], [A]
    and [TXT] of the DNS library are missing). *)
Inductive RR :=
| CNAME (Hdr : RR_Header) (Target : string)
| NS (Hdr : RR_Header) (Ns : string)
| A (Hdr : RR_Header) (A : IP)
| TXT (Hdr : RR_Header) (Txt : list string).

Definition Header (r : RR) : RR_Header :=
  match r with
  | CNAME h _ | NS h _ | A h _ | TXT h _ => h
  end.

(** Modelled from the spec: "Response: {status-code, answer-section,
    authority-section, additional-section}", and the query, which has the
    same type ([type Msg struct] of the DNS library is missing: the header
    fields of the embedded [MsgHdr], then the question and the three
    record sections). *)
Record Msg := mkMsg {
  Id : Z;
  Response : bool;
  Opcode : Z;
  Authoritative : bool;
  Truncated : bool;
  RecursionDesired : bool;
  RecursionAvailable : bool;
  Zero : bool;
  AuthenticatedData : bool;
  CheckingDisabled : bool;
  Rcode : Z;
  Compress : bool;
  Question : list Q.t;
  Answer : list RR;
  Ns : list RR;
  Extra : list RR
}.

(** [new(dns.Msg)] *)
Definition new_Msg : Msg :=
  mkMsg 0 false 0 false false false false false false false 0 false [] [] [] [].

(** Field assignments [m.Answer = ...], [m.Ns = ...], [m.Extra = ...]. *)
Definition set_Answer (m : Msg) (rrs : list RR) : Msg :=
  mkMsg (Id m) (Response m) (Opcode m) (Authoritative m) (Truncated m)
    (RecursionDesired m) (RecursionAvailable m) (Zero m)
    (AuthenticatedData m) (CheckingDisabled m) (Rcode m) (Compress m)
    (Question m) rrs (Ns m) (Extra m).

Definition set_Ns (m : Msg) (rrs : list RR) : Msg :=
  mkMsg (Id m) (Response m) (Opcode m) (Authoritative m) (Truncated m)
    (RecursionDesired m) (RecursionAvailable m) (Zero m)
    (AuthenticatedData m) (CheckingDisabled m) (Rcode m) (Compress m)
    (Question m) (Answer m) rrs (Extra m).

Definition set_Extra (m : Msg) (rrs : list RR) : Msg :=
  mkMsg (Id m) (Response m) (Opcode m) (Authoritative m) (Truncated m)
    (RecursionDesired m) (RecursionAvailable m) (Zero m)
    (AuthenticatedData m) (CheckingDisabled m) (Rcode m) (Compress m)
    (Question m) (Answer m) (Ns m) rrs.

(** Modelled from the spec: a response is "addressed to the original
    query's transaction context" ([SetReply] of the DNS library is
    missing).  [m.SetReply(request)] turns [m] into a reply to [request]:
    same id, response bit set, opcode copied, the RD and CD bits copied
    for a standard query, success status, the first question echoed; the
    record sections of [m] are left alone. *)
Definition SetReply (m request : Msg) : Msg :=
  let standard := Opcode request =? OpcodeQuery in
  mkMsg (Id request) true (Opcode request) (Authoritative m) (Truncated m)
    (if standard then RecursionDesired request else RecursionDesired m)
    (RecursionAvailable m) (Zero m) (AuthenticatedData m)
    (if standard then CheckingDisabled request else CheckingDisabled m)
    RcodeSuccess (Compress m)
    (match Question request with
     | [] => Question m
     | q0 :: _ => [q0]
     end)
    (Answer m) (Ns m) (Extra m).

(** Modelled from the spec: the "minimal response envelope" with its
    status code ([SetRcode] of the DNS library is missing).
    [m.SetRcode(request, rcode)] is [SetReply], then the status code. *)
Definition SetRcode (m request : Msg) (rcode : Z) : Msg :=
  let r := SetReply m request in
  mkMsg (Id r) (Response r) (Opcode r) (Authoritative r) (Truncated r)
    (RecursionDesired r) (RecursionAvailable r) (Zero r)
    (AuthenticatedData r) (CheckingDisabled r) rcode (Compress r)
    (Question r) (Answer r) (Ns r) (Extra r).

(** Modelled from the spec: the handle on which a handler answers one
    request, with "the requesting peer's address" ([dns.ResponseWriter]
    of the DNS library is missing). *)
Record ResponseWriter := mkWriter { RemoteAddr : string }.

End dns.

(** ** package strings of the Go standard library

    Not part of the sources; written after the library, for the calls the
    program makes. *)

Module strings.

(** [strings.HasPrefix(s, prefix)] *)
Fixpoint HasPrefix (s prefix : string) : bool :=
  match prefix, s with
  | EmptyString, _ => true
  | String p prefix', String c s' => Ascii.eqb c p && HasPrefix s' prefix'
  | String _ _, EmptyString => false
  end.

(** [strings.HasSuffix(s, suffix)]:
    [len(s) >= len(suffix) && s[len(s)-len(suffix):] == suffix] *)
Definition HasSuffix (s suffix : string) : bool :=
  (String.length suffix <=? String.length s)%nat
  && String.eqb
       (substring (String.length s - String.length suffix)
          (String.length suffix) s)
       suffix.

(** The loop of [genSplit] for a separator that is not empty, read from
    left to right: [cur] holds (reversed) the bytes of the piece being
    read, [skip] counts the bytes of a separator just found that are
    still to be dropped. *)
Fixpoint genSplit (sep : string) (skip : nat) (cur : list ascii) (s : string)
  : list string :=
  match s with
  | EmptyString => [string_of_list_ascii (rev cur)]
  | String c s' =>
      match skip with
      | S k => genSplit sep k cur s'
      | O =>
          if HasPrefix s sep
          then string_of_list_ascii (rev cur)
                 :: genSplit sep (Nat.pred (String.length sep)) [] s'
          else genSplit sep O (c :: cur) s'
      end
  end.

(** One string per byte: [explode] on text without multi-byte UTF-8
    sequences. *)
Fixpoint explode (s : string) : list string :=
  match s with
  | EmptyString => []
  | String c s' => String c EmptyString :: explode s'
  end.

(** [strings.Split(s, sep)]: the pieces of [s] between the occurrences of
    [sep].  The program only splits on ["."]. *)
Definition Split (s sep : string) : list string :=
  match sep with
  | EmptyString => explode s
  | String _ _ => genSplit sep O [] s
  end.

End strings.

(** ** package strconv of the Go standard library

    Not part of the sources; written after the library, for the calls the
    program makes.  Lemma [ParseInt_decimal_int16] below checks the result
    against the spec's "base-10 signed integer (bounded to a 16-bit
    range)". *)

Module strconv.

(** The [Err] of a [*NumError]. *)
Inductive Err :=
| ErrSyntax
| ErrRange
| ErrBase (base : Z)
| ErrBitSize (bitSize : Z).

(** A Go [error]: [None] is [nil]. *)
Definition error := option Err.

Definition IntSize : Z := 64.
Definition maxUint64 : Z := 2 ^ 64 - 1.

(** [lower(c)]: [c | ('x' - 'X')] *)
Definition lower (c : Z) : Z := Z.lor c 32.

(** The digit a byte stands for, in the [switch] of [ParseUint]'s loop
    (underscores are only skipped when the base is 0). *)
Definition digit (c : Z) : option Z :=
  if (48 <=? c) && (c <=? 57) then Some (c - 48)
  else if (97 <=? lower c) && (lower c <=? 122) then Some (lower c - 97 + 10)
  else None.

(** The loop of [ParseUint] over the bytes of [s], from the value [n]
    accumulated so far. *)
Fixpoint parseDigits (base cutoff maxVal : Z) (n : Z) (s : string) : Z * error :=
  match s with
  | EmptyString => (n, None)
  | String ch s' =>
      match digit (Go.byte ch) with
      | None => (0, Some ErrSyntax)
      | Some d =>
          if d >=? Go.uint8 base then (0, Some ErrSyntax)
          else if n >=? cutoff then (maxVal, Some ErrRange)
          else
            let n' := Go.uint64 (n * base) in
            let n1 := Go.uint64 (n' + d) in
            if (n1 <? n') || (n1 >? maxVal) then (maxVal, Some ErrRange)
            else parseDigits base cutoff maxVal n1 s'
      end
  end.

(** [strconv.ParseUint(s, base, bitSize)] for an explicit base.  (Base 0,
    which reads the base off a prefix of [s], is not used by the program
    and is reported like any other base outside 2..36.) *)
Definition ParseUint (s : string) (base bitSize : Z) : Z * error :=
  match s with
  | EmptyString => (0, Some ErrSyntax)
  | String _ _ =>
      if negb ((2 <=? base) && (base <=? 36)) then (0, Some (ErrBase base))
      else
        let bits := if bitSize =? 0 then IntSize else bitSize in
        if (bits <? 0) || (bits >? 64) then (0, Some (ErrBitSize bitSize))
        else
          let cutoff := maxUint64 / Go.uint64 base + 1 in
          let maxVal := Go.uint64 (Go.uint64 (Z.shiftl 1 bits) - 1) in
          parseDigits base cutoff maxVal 0 s
  end.

(** [strconv.ParseInt(s, base, bitSize)]: an optional sign, then
    [ParseUint], then the range check for a signed [bitSize]-bit value. *)
Definition ParseInt (s : string) (base bitSize : Z) : Z * error :=
  match s with
  | EmptyString => (0, Some ErrSyntax)
  | String c0 s1 =>
      let neg := Go.byte c0 =? 45 in
      let s' := if (Go.byte c0 =? 43) || neg then s1 else s in
      let '(un, err) := ParseUint s' base bitSize in
      match err with
      | Some ErrSyntax | Some (ErrBase _) | Some (ErrBitSize _) => (0, err)
      | Some ErrRange | None =>
          let bits := if bitSize =? 0 then IntSize else bitSize in
          let cutoff := Go.uint64 (Z.shiftl 1 (bits - 1)) in
          if negb neg && (un >=? cutoff)
          then (Go.int64 (cutoff - 1), Some ErrRange)
          else if neg && (un >? cutoff)
          then (Go.int64 (- Go.int64 cutoff), Some ErrRange)
          else
            let n := Go.int64 un in
            (if neg then Go.int64 (- n) else n, None)
      end
  end.

End strconv.

(** ** package time of the Go standard library *)

Module time.

(** [type Duration int64], in nanoseconds. *)
Definition Duration := Z.
Definition Nanosecond : Duration := 1.
Definition Microsecond : Duration := 1000 * Nanosecond.
Definition Millisecond : Duration := 1000 * Microsecond.

(** The product of two durations, in [int64]. *)
Definition mul (a b : Duration) : Duration := Go.int64 (a * b).

End time.

(** ** What a handler does to the outside *)

(** The effects of a handler, in the order they happen. *)
Inductive Event :=
| Logged (format : string) (args : list string)
| Slept (d : time.Duration)
| Wrote (w : dns.ResponseWriter) (m : dns.Msg).

(** The world a handler runs in: the clock (nanoseconds) and the events so
    far, each with the time at which it started. *)
Record World := mkWorld {
  now : Z;
  trace : list (Z * Event)
}.

(** Go code with effects: it changes the world, and returns or panics. *)
Definition M (A : Type) : Type := World -> Go.Outcome A * World.

Definition ret {A} (a : A) : M A := fun st => (Go.Done a, st).

Definition bind {A B} (c : M A) (k : A -> M B) : M B :=
  fun st =>
    match c st with
    | (Go.Done a, st') => k a st'
    | (Go.Panic e, st') => (Go.Panic e, st')
    end.

(** Pure code that may panic, run inside a handler. *)
Definition lift {A} (o : Go.Outcome A) : M A := fun st => (o, st).

Declare Scope go_scope.
Delimit Scope go_scope with go.
Notation "x <- c ;; k" := (bind c (fun x => k))
  (at level 61, c at next level, right associativity) : go_scope.
Notation "c ;; k" := (bind c (fun _ => k))
  (at level 61, right associativity) : go_scope.
Open Scope go_scope.

Definition emit (e : Event) : M unit :=
  fun st => (Go.Done tt, mkWorld (now st) (trace st ++ [(now st, e)])%list).

(** [log.Printf(format, args...)] *)
Definition log_Printf (format : string) (args : list string) : M unit :=
  emit (Logged format args).

(** [w.WriteMsg(m)]: the message is handed to the writer.  Serialising and
    sending it is the library's business, and no handler looks at the error
    it returns. *)
Definition WriteMsg (w : dns.ResponseWriter) (m : dns.Msg) : M unit :=
  emit (Wrote w m).

(** The messages handed to a response writer, oldest first. *)
Definition responses (st : World) : list dns.Msg :=
  flat_map (fun te => match snd te with Wrote _ m => [m] | _ => [] end) (trace st).

(** The durations of the calls of [time.Sleep], oldest first. *)
Definition sleeps (st : World) : list time.Duration :=
  flat_map (fun te => match snd te with Slept d => [d] | _ => [] end) (trace st).

(** All records of a message, over its three sections. *)
Definition records (m : dns.Msg) : list dns.RR :=
  (dns.Answer m ++ dns.Ns m ++ dns.Extra m)%list.

(** [type HandlerFunc func(ResponseWriter, *Msg)] *)
Definition Handler : Type := dns.ResponseWriter -> dns.Msg -> M unit.

(** ** awful.go *)

Section Awful.

(** The flags [-ip] and [-base], as [flag.Parse] leaves them. *)
Variable ip : string.
Variable basename : string.

(** [net.ParseIP] of the Go standard library. *)
Variable ParseIP : string -> dns.IP.

(** How long a call [time.Sleep(d)] really pauses the goroutine; the
    scheduler decides. *)
Variable pause : time.Duration -> Z.

(** [time.Sleep(d)] *)
Definition time_Sleep (d : time.Duration) : M unit :=
  fun st =>
    (Go.Done tt, mkWorld (now st + pause d) (trace st ++ [(now st, Slept d)])%list).

(** [qname] returns the QNAME from a query. If there is no QNAME in a
    query it returns ["."]. *)
Definition qname (q : dns.Msg) : Go.Outcome string :=
  if Go.len (dns.Question q) >? 0 then
    Go.obind (Go.index (dns.Question q) 0) (fun q0 => Go.Done (dns.Q.Name q0))
  else Go.Done ".".

Definition logQuery (w : dns.ResponseWriter) (q : dns.Msg) (handler : string)
  : M unit :=
  name <- lift (qname q) ;;
  log_Printf "query from %s for %q, handled by %s"
    [dns.RemoteAddr w; name; handler].

(** [txtError] writes a response with a TXT record containing the given
    error message. *)
Definition txtError (w : dns.ResponseWriter) (q : dns.Msg) (errorMsg : string)
  : M unit :=
  let m := dns.new_Msg in
  let m := dns.SetRcode m q dns.RcodeSuccess in
  name <- lift (qname q) ;;
  let m := dns.set_Answer m
    [dns.TXT (dns.mkHdr name dns.TypeTXT dns.ClassINET 0 0) [errorMsg]] in
  WriteMsg w m.

(** [unknownHandler] handles any request that doesn't match a pattern. *)
Definition unknownHandler : Handler := fun w q =>
  logQuery w q "unknownHandler" ;;
  txtError w q "request did not match any known pattern.".

(** [cnamePitHandler] answers every query with a CNAME to a name formed
    by prepending "q." to its own name. *)
Definition cnamePitHandler : Handler := fun w q =>
  logQuery w q "cnamePitHandler" ;;
  let m := dns.new_Msg in
  let m := dns.SetRcode m q dns.RcodeSuccess in
  name <- lift (qname q) ;;
  name' <- lift (qname q) ;;
  let record :=
    dns.CNAME (dns.mkHdr name dns.TypeCNAME dns.ClassINET 0 0) ("q." ++ name') in
  let m := dns.set_Answer m [record] in
  WriteMsg w m.

(** [manyCutsHandler] always replies with a referral. *)
Definition manyCutsHandler : Handler := fun w q =>
  logQuery w q "manyCutsHandler" ;;
  let m := dns.new_Msg in
  let m := dns.SetRcode m q dns.RcodeSuccess in
  q0 <- lift (Go.index (dns.Question q) 0) ;;
  let name := dns.Q.Name q0 in
  let nextName := "q." ++ name in
  let record :=
    dns.NS (dns.mkHdr name dns.TypeNS dns.ClassINET 0 0) nextName in
  let m := dns.set_Ns m [record] in
  let m := dns.set_Extra m
    [dns.A (dns.mkHdr nextName dns.TypeA dns.ClassINET 0 0) (ParseIP ip)] in
  WriteMsg w m.

(** [sleepHandler] sleeps the number of milliseconds specified in the
    first label of the qname, and then replies with NOERROR. If the label
    fails to parse it will return a TXT record with an error message. *)
Definition sleepHandler : Handler := fun w q =>
  logQuery w q "sleepHandler" ;;
  let m := dns.new_Msg in
  let m := dns.SetRcode m q dns.RcodeSuccess in
  name <- lift (qname q) ;;
  let labels := strings.Split name "." in
  label0 <- lift (Go.index labels 0) ;;
  let '(sleepCount, err) := strconv.ParseInt label0 10 16 in
  match err with
  | Some _ => txtError w q "failed to parse integer sleep time"
  | None =>
      time_Sleep (time.mul sleepCount time.Millisecond) ;;
      WriteMsg w m
  end.

(** *** The query router

    [main] registers the handlers on a [dns.ServeMux], which belongs to
    the DNS library. *)

(** Modelled from the spec: a registration of the router, a suffix
    pattern with its handler (the [dns.ServeMux] that keeps them is not
    part of the sources). *)
Record HandlerRegistration := mkReg {
  suffix_pattern : string;
  handler : Handler
}.

(** Modelled from the spec: the fully-qualified form of a name, which
    ends in the root label (the library's name handling is missing). *)
Definition Fqdn (s : string) : string :=
  if strings.HasSuffix s "." then s else s ++ ".".

(** Modelled from the spec: the matching rule of the router, "exact/suffix
    match on the fully-qualified query name against each registered
    pattern" (the matching of [dns.ServeMux] is missing). *)
Definition matches (pattern name : string) : bool :=
  strings.HasSuffix (Fqdn name) (Fqdn pattern).

(** Modelled from the spec: the longest registered pattern that matches
    the name, over "a small ordered list of (pattern, handler) pairs
    checked linearly"; [best] is the longest match so far (the lookup of
    [dns.ServeMux] is missing). *)
Fixpoint longest_match (regs : list HandlerRegistration) (name : string)
  (best : option HandlerRegistration) : option HandlerRegistration :=
  match regs with
  | [] => best
  | r :: regs' =>
      let best' :=
        if matches (suffix_pattern r) name then
          match best with
          | None => Some r
          | Some b =>
              if (String.length (suffix_pattern b) <? String.length (suffix_pattern r))%nat
              then Some r else best
          end
        else best in
      longest_match regs' name best'
  end.

(** Modelled from the spec: "route(query) returns exactly one handler ...
    if no registered pattern matches, the default handler is selected"
    (the [dns.ServeMux] is missing). *)
Definition route (regs : list HandlerRegistration) (default : Handler)
  (name : string) : Handler :=
  match longest_match regs name None with
  | Some r => handler r
  | None => default
  end.

(** The registrations of [main]: [mux.HandleFunc(pattern, handler)] for
    the three reserved subdomains of the base domain. *)
Definition registrations : list HandlerRegistration :=
  [ mkReg ("cnamepit." ++ basename) cnamePitHandler;
    mkReg ("manycuts." ++ basename) manyCutsHandler;
    mkReg ("sleep." ++ basename) sleepHandler ].

(** Modelled from the spec: a query is dispatched on its name, the root
    name when it has no question, and [unknownHandler], which [main]
    registers for ["."], is the default (the [ServeDNS] of [dns.ServeMux]
    is missing). *)
Definition ServeDNS : Handler := fun w q =>
  name <- lift (qname q) ;;
  route registrations unknownHandler name w q.

(** The four handlers of the core, with the configuration they read. *)
Definition core_handlers : list Handler :=
  [ cnamePitHandler; manyCutsHandler; sleepHandler; unknownHandler ].

(** [writes_only P h]: whatever the query and the world, the messages
    the handler [h] hands to the writer all satisfy [P]. *)
Definition writes_only (P : dns.Msg -> Prop) (h : Handler) : Prop :=
  forall w q st, exists ms,
    responses (snd (h w q st)) = (responses st ++ ms)%list /\ Forall P ms.

(** A record is in the Internet class. *)
Definition class_IN (r : dns.RR) : Prop :=
  dns.Class (dns.Header r) = dns.ClassINET.

(** *** Sample inputs *)

Definition sample_writer : dns.ResponseWriter := dns.mkWriter "192.0.2.7:40000".

(** A query for [name] with type A (1) in the CHAOS class (3). *)
Definition sample_query (name : string) : dns.Msg :=
  dns.mkMsg 4660 false 0 false false true false false false false 0 false
    [dns.Q.mk name 1 3] [] [] [].

(** A query with no question section. *)
Definition empty_query : dns.Msg :=
  dns.mkMsg 4660 false 0 false false true false false false false 0 false
    [] [] [] [].

Definition sample_world : World := mkWorld 1000 [].

(** A scheduler that wakes a sleeper exactly when its time is up. *)
Definition punctual (d : time.Duration) : Z := Z.max 0 d.

(** [net.ParseIP] on the default of the [-ip] flag: the 16-byte form of
    127.0.0.1. *)
Definition ParseIP_loopback (s : string) : dns.IP :=
  if String.eqb s "127.0.0.1"
  then Some [0; 0; 0; 0; 0; 0; 0; 0; 0; 0; 255; 255; 127; 0; 0; 1]
  else None.

(** *** Reading a trace *)

(** The line [logQuery] prints for a query named [name]. *)
Definition log_line (w : dns.ResponseWriter) (name handler : string) : Event :=
  Logged "query from %s for %q, handled by %s" [dns.RemoteAddr w; name; handler].

(** Each handler with the name it gives to [logQuery]. *)
Definition named_handlers : list (string * Handler) :=
  [ ("cnamePitHandler", cnamePitHandler);
    ("manyCutsHandler", manyCutsHandler);
    ("sleepHandler", sleepHandler);
    ("unknownHandler", unknownHandler) ].

Definition is_log (e : Event) : bool :=
  match e with Logged _ _ => true | _ => false end.

Definition is_write (e : Event) : bool :=
  match e with Wrote _ _ => true | _ => false end.


(** The type code that goes with each Go record type. *)
Definition kind_tag (r : dns.RR) : Z :=
  match r with
  | dns.CNAME _ _ => dns.TypeCNAME
  | dns.NS _ _ => dns.TypeNS
  | dns.A _ _ => dns.TypeA
  | dns.TXT _ _ => dns.TypeTXT
  end.

(** An alias or a delegation that leads on: the name a CNAME or NS record
    points to is its owner with two more bytes in front, so it is never
    the owner itself. *)
Definition points_further (r : dns.RR) : Prop :=
  match r with
  | dns.CNAME h target | dns.NS h target =>
      String.length target = (2 + String.length (dns.Name h))%nat
      /\ target <> dns.Name h
      /\ strings.HasSuffix target (dns.Name h) = true
  | dns.A _ _ | dns.TXT _ _ => True
  end.

(** The nameserver of every NS record of the authority section has an
    address record of its own in the additional section. *)
Definition has_glue (m : dns.Msg) : Prop :=
  forall h ns, In (dns.NS h ns) (dns.Ns m) ->
    exists ha a, In (dns.A ha a) (dns.Extra m) /\ dns.Name ha = ns.

(** The three ways a handler can run on a query named [N]: it panics on
    the missing question after its log line; it logs and answers with a
    message [m]; or it logs, sleeps [K] milliseconds and answers.  Neither
    the outcome nor the events depend on the world the handler starts
    in. *)
Definition run_shape (name : string) (h : Handler) (w : dns.ResponseWriter)
  (q : dns.Msg) (N : string) : Prop :=
  (dns.Question q = []
   /\ forall st,
        h w q st
        = (Go.Panic (Go.IndexOutOfRange 0 0),
           mkWorld (now st) (trace st ++ [(now st, log_line w N name)])%list))
  \/ (exists m,
        forall st,
          h w q st
          = (Go.Done tt,
             mkWorld (now st)
               (trace st ++
                [(now st, log_line w N name); (now st, Wrote w m)])%list))
  \/ (exists K m,
        -32768 <= K <= 32767
        /\ forall st,
             h w q st
             = (Go.Done tt,
                mkWorld (now st + pause (K * 1000000))
                  (trace st ++
                   [(now st, log_line w N name);
                    (now st, Slept (K * 1000000));
                    (now st + pause (K * 1000000), Wrote w m)])%list)).

(** *** What the first label of a sleep query should be

    The sleep handler reads its first label as "a base-10 signed integer
    (bounded to a 16-bit range)".  The definitions below say this in
    arithmetic, to be compared with [strconv.ParseInt]. *)

Definition is_decimal_digit (c : ascii) : bool :=
  (48 <=? Go.byte c) && (Go.byte c <=? 57).

(** The number written by the decimal digits of [s] after the digits
    already read as [acc]; [None] when a byte of [s] is not a digit. *)
Fixpoint decimal_value (acc : Z) (s : string) : option Z :=
  match s with
  | EmptyString => Some acc
  | String c s' =>
      if is_decimal_digit c
      then decimal_value (10 * acc + (Go.byte c - 48)) s'
      else None
  end.

(** An optional sign, then at least one decimal digit. *)
Definition signed_decimal (s : string) : option Z :=
  match s with
  | EmptyString => None
  | String c s' =>
      let neg := Go.byte c =? 45 in
      let digits := if (Go.byte c =? 43) || neg then s' else s in
      match digits with
      | EmptyString => None
      | String _ _ =>
          match decimal_value 0 digits with
          | Some v => Some (if neg then - v else v)
          | None => None
          end
      end
  end.

(** A signed decimal that fits in 16 bits. *)
Definition decimal_int16 (s : string) : option Z :=
  match signed_decimal s with
  | Some k => if (-32768 <=? k) && (k <=? 32767) then Some k else None
  | None => None
  end.

(** ** Proofs *)

(** *** Machine integers *)

Lemma uint64_small (z : Z) : 0 <= z < 2 ^ 64 -> Go.uint64 z = z.
Proof. intros H. unfold Go.uint64. now apply Z.mod_small. Qed.

Lemma int64_small (z : Z) : - 2 ^ 63 <= z < 2 ^ 63 -> Go.int64 z = z.
Proof.
  intros H. unfold Go.int64.
  rewrite Z.mod_small; [lia|].
  change (2 ^ 64) with (2 ^ 63 + 2 ^ 63). lia.
Qed.

(** A duration of whole milliseconds that came out of a 16-bit integer
    does not wrap around. *)
Lemma mul_Millisecond_int16 (k : Z) :
  -32768 <= k <= 32767 -> time.mul k time.Millisecond = k * 1000000.
Proof.
  intros H. unfold time.mul.
  change time.Millisecond with 1000000.
  apply int64_small.
  change (2 ^ 63) with 9223372036854775808. lia.
Qed.

Lemma geb_false (a b : Z) : a < b -> (a >=? b) = false.
Proof. intros H. rewrite Z.geb_leb. now apply Z.leb_gt. Qed.

Lemma geb_true (a b : Z) : b <= a -> (a >=? b) = true.
Proof. intros H. rewrite Z.geb_leb. now apply Z.leb_le. Qed.

Lemma gtb_false (a b : Z) : a <= b -> (a >? b) = false.
Proof. intros H. rewrite Z.gtb_ltb. now apply Z.ltb_ge. Qed.

Lemma gtb_true (a b : Z) : b < a -> (a >? b) = true.
Proof. intros H. rewrite Z.gtb_ltb. now apply Z.ltb_lt. Qed.

Lemma int16_test_true (k : Z) :
  -32768 <= k <= 32767 -> (-32768 <=? k) && (k <=? 32767) = true.
Proof. intros H. apply andb_true_iff. split; apply Z.leb_le; lia. Qed.

Lemma int16_test_false (k : Z) :
  k < -32768 \/ 32767 < k -> (-32768 <=? k) && (k <=? 32767) = false.
Proof.
  intros H. apply andb_false_iff.
  destruct H; [left | right]; apply Z.leb_gt; lia.
Qed.

(** *** Slices and names *)

Lemma index_0_cons {A} (a : A) (l : list A) : Go.index (a :: l) 0 = Go.Done a.
Proof.
  unfold Go.index, Go.len. cbn [List.length nth_error Z.to_nat].
  replace (0 <? Z.of_nat (S (List.length l))) with true by (symmetry; apply Z.ltb_lt; lia).
  reflexivity.
Qed.

Lemma index_0_nil {A} : Go.index (@nil A) 0 = Go.Panic (Go.IndexOutOfRange 0 0).
Proof. reflexivity. Qed.

Lemma len_cons_pos {A} (a : A) (l : list A) : (Go.len (a :: l) >? 0) = true.
Proof. unfold Go.len. apply Z.gtb_lt. cbn [List.length]. lia. Qed.

Lemma qname_nil (q : dns.Msg) : dns.Question q = [] -> qname q = Go.Done ".".
Proof. intros H. unfold qname. rewrite H. reflexivity. Qed.

Lemma qname_cons (q : dns.Msg) q0 rest :
  dns.Question q = q0 :: rest -> qname q = Go.Done (dns.Q.Name q0).
Proof.
  intros H. unfold qname. rewrite H, len_cons_pos, index_0_cons. reflexivity.
Qed.

Lemma qname_Done (q : dns.Msg) : exists N, qname q = Go.Done N.
Proof.
  destruct (dns.Question q) as [|q0 rest] eqn:E.
  - exists ".". now apply qname_nil.
  - exists (dns.Q.Name q0). now apply (qname_cons q q0 rest).
Qed.

(** *** [strings.Split] *)

Lemma genSplit_not_nil (sep : string) (s : string) :
  forall skip cur, strings.genSplit sep skip cur s <> [].
Proof.
  induction s as [|c s IH]; intros skip cur; cbn [strings.genSplit].
  - discriminate.
  - destruct skip as [|k].
    + destruct (strings.HasPrefix (String c s) sep); [discriminate | apply IH].
    + apply IH.
Qed.

(** Splitting on a separator that is not empty gives at least one piece,
    so [labels[0]] is always there. *)
Lemma Split_dot_first (s : string) :
  exists label rest, strings.Split s "." = label :: rest.
Proof.
  destruct (strings.Split s ".") as [|label rest] eqn:E.
  - exfalso. revert E. unfold strings.Split. apply genSplit_not_nil.
  - now exists label, rest.
Qed.

(** *** [strconv.ParseInt] reads decimal 16-bit integers *)

Lemma digit_decimal (c : ascii) :
  is_decimal_digit c = true -> strconv.digit (Go.byte c) = Some (Go.byte c - 48).
Proof.
  unfold is_decimal_digit, strconv.digit. intros H. now rewrite H.
Qed.

(** In base 10 a byte that is not a decimal digit is a syntax error: it
    is no digit at all, or a letter, which stands for 10 or more. *)
Lemma digit_not_decimal (c : ascii) :
  is_decimal_digit c = false ->
  match strconv.digit (Go.byte c) with
  | Some d => 10 <= d
  | None => True
  end.
Proof.
  unfold is_decimal_digit, strconv.digit. intros H. rewrite H.
  destruct ((97 <=? strconv.lower (Go.byte c)) && (strconv.lower (Go.byte c) <=? 122)) eqn:E;
    [|exact I].
  apply andb_prop in E. destruct E as [E _]. apply Z.leb_le in E. lia.
Qed.

Lemma decimal_value_ge (s : string) :
  forall acc v, 0 <= acc -> decimal_value acc s = Some v -> acc <= v.
Proof.
  induction s as [|c s IH]; intros acc v Hacc; cbn [decimal_value].
  - intros [= <-]. lia.
  - destruct (is_decimal_digit c) eqn:D; [|discriminate].
    intros H. unfold is_decimal_digit in D.
    apply andb_prop in D. destruct D as [D1 D2].
    apply Z.leb_le in D1. apply IH in H; lia.
Qed.

Lemma ParseUint_10_16 (c : ascii) (s : string) :
  strconv.ParseUint (String c s) 10 16
  = strconv.parseDigits 10 1844674407370955162 65535 0 (String c s).
Proof. reflexivity. Qed.

(** The loop of [ParseUint], base 10 and 16 bits, against the decimal
    value: it returns the value when there is one that fits in 16 bits,
    and an error otherwise. *)
Lemma parseDigits_decimal (s : string) :
  forall n, 0 <= n <= 65535 ->
  match decimal_value n s with
  | Some v =>
      if v <=? 65535
      then strconv.parseDigits 10 1844674407370955162 65535 n s = (v, None)
      else strconv.parseDigits 10 1844674407370955162 65535 n s
           = (65535, Some strconv.ErrRange)
  | None =>
      strconv.parseDigits 10 1844674407370955162 65535 n s
      = (0, Some strconv.ErrSyntax)
      \/ strconv.parseDigits 10 1844674407370955162 65535 n s
         = (65535, Some strconv.ErrRange)
  end.
Proof.
  induction s as [|c s IH]; intros n Hn; cbn [decimal_value strconv.parseDigits].
  - replace (n <=? 65535) with true by (symmetry; apply Z.leb_le; lia).
    reflexivity.
  - destruct (is_decimal_digit c) eqn:D.
    + rewrite (digit_decimal c D).
      unfold is_decimal_digit in D. apply andb_prop in D. destruct D as [D1 D2].
      apply Z.leb_le in D1, D2.
      change (Go.uint8 10) with 10.
      rewrite (geb_false (Go.byte c - 48) 10) by lia.
      rewrite (geb_false n 1844674407370955162) by lia.
      cbv zeta.
      rewrite (uint64_small (n * 10)) by (change (2 ^ 64) with 18446744073709551616; lia).
      rewrite (uint64_small (n * 10 + (Go.byte c - 48)))
        by (change (2 ^ 64) with 18446744073709551616; lia).
      replace (n * 10 + (Go.byte c - 48) <? n * 10) with false
        by (symmetry; apply Z.ltb_ge; lia).
      cbn [orb].
      replace (10 * n + (Go.byte c - 48)) with (n * 10 + (Go.byte c - 48)) by lia.
      destruct (Z_le_gt_dec (n * 10 + (Go.byte c - 48)) 65535) as [G|G].
      2:{ rewrite gtb_true by lia.
        destruct (decimal_value (n * 10 + (Go.byte c - 48)) s) as [v|] eqn:V.
        -- apply decimal_value_ge in V; [|lia].
           replace (v <=? 65535) with false by (symmetry; apply Z.leb_gt; lia).
           reflexivity.
        -- now right. }
      rewrite gtb_false by lia. apply IH. lia.
    + pose proof (digit_not_decimal c D) as K.
      destruct (strconv.digit (Go.byte c)) as [d|]; [|now left].
      change (Go.uint8 10) with 10.
      rewrite (geb_true d 10) by lia.
      now left.
Qed.

(** [strconv.ParseInt(s, 10, 16)] succeeds exactly on the signed decimals
    that fit in 16 bits, and then returns their value. *)
Lemma ParseInt_decimal_int16 (s : string) :
  match decimal_int16 s with
  | Some k => strconv.ParseInt s 10 16 = (k, None)
  | None => snd (strconv.ParseInt s 10 16) <> None
  end.
Proof.
  destruct s as [|c s1]; [cbn; discriminate|].
  unfold decimal_int16, signed_decimal, strconv.ParseInt.
  cbv zeta.
  set (neg := Go.byte c =? 45).
  set (digits := if (Go.byte c =? 43) || neg then s1 else String c s1).
  destruct digits as [|d0 ds] eqn:Ed; [cbn; discriminate|].
  rewrite ParseUint_10_16.
  change (Go.uint64 (Z.shiftl 1 ((if 16 =? 0 then strconv.IntSize else 16) - 1)))
    with 32768.
  pose proof (parseDigits_decimal (String d0 ds) 0 ltac:(lia)) as P.
  destruct (decimal_value 0 (String d0 ds)) as [v|] eqn:V.
  - pose proof (decimal_value_ge _ _ _ (Z.le_refl 0) V) as Hv.
    destruct (Z_le_gt_dec v 65535) as [Hle|Hgt].
    + (* the digits fit in 16 bits: the sign decides *)
      rewrite (proj2 (Z.leb_le v 65535) Hle) in P. rewrite P.
      destruct neg; cbn [negb andb].
      * destruct (Z_le_gt_dec v 32768) as [G|G].
        -- rewrite gtb_false, int16_test_true by lia.
           rewrite (int64_small v), (int64_small (- v))
             by (change (2 ^ 63) with 9223372036854775808; lia).
           reflexivity.
        -- rewrite gtb_true, int16_test_false by lia. cbn. discriminate.
      * destruct (Z_lt_ge_dec v 32768) as [G|G].
        -- rewrite geb_false, int16_test_true by lia.
           rewrite (int64_small v)
             by (change (2 ^ 63) with 9223372036854775808; lia).
           reflexivity.
        -- rewrite geb_true, int16_test_false by lia. cbn. discriminate.
    + (* too many digits: [ParseUint] has already given up *)
      rewrite (proj2 (Z.leb_gt v 65535)) in P by lia. rewrite P.
      rewrite int16_test_false by (destruct neg; lia).
      destruct neg; cbn; discriminate.
  - destruct P as [P|P]; rewrite P; [cbn; discriminate|].
    destruct neg; cbn; discriminate.
Qed.

(** What [ParseInt(s, 10, 16)] returns without an error is a 16-bit
    value. *)
Lemma ParseInt_int16_range (s : string) (k : Z) :
  strconv.ParseInt s 10 16 = (k, None) -> -32768 <= k <= 32767.
Proof.
  intros H. pose proof (ParseInt_decimal_int16 s) as P.
  unfold decimal_int16 in P.
  destruct (signed_decimal s) as [k'|].
  - destruct ((-32768 <=? k') && (k' <=? 32767)) eqn:R.
    + rewrite P in H. injection H as <-.
      apply andb_prop in R. destruct R as [R1 R2].
      apply Z.leb_le in R1, R2. lia.
    + rewrite H in P. now contradiction P.
  - rewrite H in P. now contradiction P.
Qed.

(** *** Traces *)

Lemma responses_app (st : World) (t : Z) (es : list (Z * Event)) :
  responses (mkWorld t (trace st ++ es)%list)
  = (responses st ++ responses (mkWorld t es))%list.
Proof. unfold responses. cbn [trace]. apply flat_map_app. Qed.

Lemma sleeps_app (st : World) (t : Z) (es : list (Z * Event)) :
  sleeps (mkWorld t (trace st ++ es)%list)
  = (sleeps st ++ sleeps (mkWorld t es))%list.
Proof. unfold sleeps. cbn [trace]. apply flat_map_app. Qed.

(** *** Running the handlers *)

(** Running a handler step by step. *)
Ltac run_handler :=
  unfold cnamePitHandler, manyCutsHandler, sleepHandler, unknownHandler,
    txtError, logQuery, log_Printf, WriteMsg, time_Sleep, emit, bind, lift, ret.

Lemma logQuery_run (w : dns.ResponseWriter) (q : dns.Msg) (handler : string)
  (st : World) (N : string) :
  qname q = Go.Done N ->
  logQuery w q handler st
  = (Go.Done tt,
     mkWorld (now st)
       (trace st ++
        [(now st, Logged "query from %s for %q, handled by %s"
                    [dns.RemoteAddr w; N; handler])])%list).
Proof. intros HN. run_handler. rewrite HN. reflexivity. Qed.

Lemma txtError_run (w : dns.ResponseWriter) (q : dns.Msg) (errorMsg : string)
  (st : World) (N : string) :
  qname q = Go.Done N ->
  txtError w q errorMsg st
  = (Go.Done tt,
     mkWorld (now st)
       (trace st ++
        [(now st,
          Wrote w
            (dns.set_Answer (dns.SetRcode dns.new_Msg q dns.RcodeSuccess)
               [dns.TXT (dns.mkHdr N dns.TypeTXT dns.ClassINET 0 0) [errorMsg]]))])%list).
Proof. intros HN. run_handler. rewrite HN. reflexivity. Qed.

Lemma unknownHandler_run (w : dns.ResponseWriter) (q : dns.Msg) (st : World)
  (N : string) :
  qname q = Go.Done N ->
  unknownHandler w q st
  = (Go.Done tt,
     mkWorld (now st)
       (trace st ++
        [(now st, Logged "query from %s for %q, handled by %s"
                    [dns.RemoteAddr w; N; "unknownHandler"]);
         (now st,
          Wrote w
            (dns.set_Answer (dns.SetRcode dns.new_Msg q dns.RcodeSuccess)
               [dns.TXT (dns.mkHdr N dns.TypeTXT dns.ClassINET 0 0)
                  ["request did not match any known pattern."]]))])%list).
Proof.
  intros HN. unfold unknownHandler, bind.
  rewrite (logQuery_run _ _ _ _ _ HN), (txtError_run _ _ _ _ _ HN).
  cbn [now trace]. now rewrite <- app_assoc.
Qed.

Lemma cnamePitHandler_run (w : dns.ResponseWriter) (q : dns.Msg) (st : World)
  (N : string) :
  qname q = Go.Done N ->
  cnamePitHandler w q st
  = (Go.Done tt,
     mkWorld (now st)
       (trace st ++
        [(now st, Logged "query from %s for %q, handled by %s"
                    [dns.RemoteAddr w; N; "cnamePitHandler"]);
         (now st,
          Wrote w
            (dns.set_Answer (dns.SetRcode dns.new_Msg q dns.RcodeSuccess)
               [dns.CNAME (dns.mkHdr N dns.TypeCNAME dns.ClassINET 0 0)
                  ("q." ++ N)]))])%list).
Proof.
  intros HN. run_handler. rewrite HN. cbn [now trace].
  now rewrite <- app_assoc.
Qed.

Lemma manyCutsHandler_run (w : dns.ResponseWriter) (q : dns.Msg) (st : World)
  (q0 : dns.Q.t) (rest : list dns.Q.t) :
  dns.Question q = q0 :: rest ->
  manyCutsHandler w q st
  = (Go.Done tt,
     mkWorld (now st)
       (trace st ++
        [(now st, Logged "query from %s for %q, handled by %s"
                    [dns.RemoteAddr w; dns.Q.Name q0; "manyCutsHandler"]);
         (now st,
          Wrote w
            (dns.set_Extra
               (dns.set_Ns (dns.SetRcode dns.new_Msg q dns.RcodeSuccess)
                  [dns.NS (dns.mkHdr (dns.Q.Name q0) dns.TypeNS dns.ClassINET 0 0)
                     ("q." ++ dns.Q.Name q0)])
               [dns.A
                  (dns.mkHdr ("q." ++ dns.Q.Name q0) dns.TypeA dns.ClassINET 0 0)
                  (ParseIP ip)]))])%list).
Proof.
  intros HQ. run_handler.
  rewrite (qname_cons q q0 rest HQ), HQ, index_0_cons. cbn [now trace].
  now rewrite <- app_assoc.
Qed.

Lemma manyCutsHandler_run_no_question (w : dns.ResponseWriter) (q : dns.Msg)
  (st : World) :
  dns.Question q = [] ->
  manyCutsHandler w q st
  = (Go.Panic (Go.IndexOutOfRange 0 0),
     mkWorld (now st)
       (trace st ++
        [(now st, Logged "query from %s for %q, handled by %s"
                    [dns.RemoteAddr w; "."; "manyCutsHandler"])])%list).
Proof.
  intros HQ. run_handler. rewrite (qname_nil q HQ), HQ, index_0_nil.
  reflexivity.
Qed.

Lemma sleepHandler_run_error (w : dns.ResponseWriter) (q : dns.Msg) (st : World)
  (N label : string) (rest : list string) (v : Z) (e : strconv.Err) :
  qname q = Go.Done N ->
  strings.Split N "." = label :: rest ->
  strconv.ParseInt label 10 16 = (v, Some e) ->
  sleepHandler w q st
  = (Go.Done tt,
     mkWorld (now st)
       (trace st ++
        [(now st, Logged "query from %s for %q, handled by %s"
                    [dns.RemoteAddr w; N; "sleepHandler"]);
         (now st,
          Wrote w
            (dns.set_Answer (dns.SetRcode dns.new_Msg q dns.RcodeSuccess)
               [dns.TXT (dns.mkHdr N dns.TypeTXT dns.ClassINET 0 0)
                  ["failed to parse integer sleep time"]]))])%list).
Proof.
  intros HN HS HP. unfold sleepHandler, bind, lift.
  rewrite (logQuery_run _ _ _ _ _ HN), HN, HS, index_0_cons, HP.
  rewrite (txtError_run _ _ _ _ _ HN). cbn [now trace].
  now rewrite <- app_assoc.
Qed.

Lemma sleepHandler_run_ok (w : dns.ResponseWriter) (q : dns.Msg) (st : World)
  (N label : string) (rest : list string) (K : Z) :
  qname q = Go.Done N ->
  strings.Split N "." = label :: rest ->
  strconv.ParseInt label 10 16 = (K, None) ->
  sleepHandler w q st
  = (Go.Done tt,
     mkWorld (now st + pause (K * 1000000))
       (trace st ++
        [(now st, Logged "query from %s for %q, handled by %s"
                    [dns.RemoteAddr w; N; "sleepHandler"]);
         (now st, Slept (K * 1000000));
         (now st + pause (K * 1000000),
          Wrote w (dns.SetRcode dns.new_Msg q dns.RcodeSuccess))])%list).
Proof.
  intros HN HS HP. unfold sleepHandler, bind, lift.
  rewrite (logQuery_run _ _ _ _ _ HN), HN, HS, index_0_cons, HP.
  rewrite (mul_Millisecond_int16 K (ParseInt_int16_range label K HP)).
  unfold time_Sleep, WriteMsg, emit. cbn [now trace].
  now rewrite <- !app_assoc.
Qed.

(** *** What the handlers hand to the writer *)

(** Whatever a handler of the core hands to the writer is one of three
    messages: a bare reply, a reply with one answer record, or a reply
    with one authority and one additional record. *)
Lemma unknownHandler_writes (P : dns.Msg -> Prop) :
  (forall q N msg,
      P (dns.set_Answer (dns.SetRcode dns.new_Msg q dns.RcodeSuccess)
           [dns.TXT (dns.mkHdr N dns.TypeTXT dns.ClassINET 0 0) [msg]])) ->
  writes_only P unknownHandler.
Proof.
  intros HP w q st. destruct (qname_Done q) as [N HN].
  rewrite (unknownHandler_run w q st N HN). cbn [snd].
  rewrite responses_app. eexists. split; [reflexivity|].
  cbn. constructor; [apply HP | constructor].
Qed.

Lemma cnamePitHandler_writes (P : dns.Msg -> Prop) :
  (forall q N,
      P (dns.set_Answer (dns.SetRcode dns.new_Msg q dns.RcodeSuccess)
           [dns.CNAME (dns.mkHdr N dns.TypeCNAME dns.ClassINET 0 0) ("q." ++ N)])) ->
  writes_only P cnamePitHandler.
Proof.
  intros HP w q st. destruct (qname_Done q) as [N HN].
  rewrite (cnamePitHandler_run w q st N HN). cbn [snd].
  rewrite responses_app. eexists. split; [reflexivity|].
  cbn. constructor; [apply HP | constructor].
Qed.

Lemma manyCutsHandler_writes (P : dns.Msg -> Prop) :
  (forall q N a,
      P (dns.set_Extra
           (dns.set_Ns (dns.SetRcode dns.new_Msg q dns.RcodeSuccess)
              [dns.NS (dns.mkHdr N dns.TypeNS dns.ClassINET 0 0) ("q." ++ N)])
           [dns.A (dns.mkHdr ("q." ++ N) dns.TypeA dns.ClassINET 0 0) a])) ->
  writes_only P manyCutsHandler.
Proof.
  intros HP w q st. destruct (dns.Question q) as [|q0 rest] eqn:HQ.
  - rewrite (manyCutsHandler_run_no_question w q st HQ). cbn [snd].
    rewrite responses_app. exists []. split; [reflexivity | constructor].
  - rewrite (manyCutsHandler_run w q st q0 rest HQ). cbn [snd].
    rewrite responses_app. eexists. split; [reflexivity|].
    cbn. constructor; [apply HP | constructor].
Qed.

Lemma sleepHandler_writes (P : dns.Msg -> Prop) :
  (forall q N msg,
      P (dns.set_Answer (dns.SetRcode dns.new_Msg q dns.RcodeSuccess)
           [dns.TXT (dns.mkHdr N dns.TypeTXT dns.ClassINET 0 0) [msg]])) ->
  (forall q, P (dns.SetRcode dns.new_Msg q dns.RcodeSuccess)) ->
  writes_only P sleepHandler.
Proof.
  intros HP1 HP2 w q st. destruct (qname_Done q) as [N HN].
  destruct (Split_dot_first N) as (label & rest & HS).
  destruct (strconv.ParseInt label 10 16) as [v [e|]] eqn:HI.
  - rewrite (sleepHandler_run_error w q st N label rest v e HN HS HI). cbn [snd].
    rewrite responses_app. eexists. split; [reflexivity|].
    cbn. constructor; [apply HP1 | constructor].
  - rewrite (sleepHandler_run_ok w q st N label rest v HN HS HI). cbn [snd].
    rewrite responses_app. eexists. split; [reflexivity|].
    cbn. constructor; [apply HP2 | constructor].
Qed.

(** *** The router *)

Lemma length_append (a b : string) :
  String.length (a ++ b) = (String.length a + String.length b)%nat.
Proof. induction a as [|c a IH]; cbn; [reflexivity | now rewrite IH]. Qed.

Lemma Fqdn_length (s : string) : (String.length s <= String.length (Fqdn s))%nat.
Proof.
  unfold Fqdn. destruct (strings.HasSuffix s "."); [apply Nat.le_refl|].
  rewrite length_append. apply Nat.le_add_r.
Qed.

(** The root name matches no pattern of two bytes or more. *)
Lemma root_matches_no_long_pattern (pattern : string) :
  (2 <= String.length pattern)%nat -> matches pattern "." = false.
Proof.
  intros H. unfold matches, strings.HasSuffix.
  change (String.length (Fqdn ".")) with 1%nat.
  pose proof (Fqdn_length pattern) as L.
  replace (String.length (Fqdn pattern) <=? 1)%nat with false; [reflexivity|].
  symmetry. apply Nat.leb_gt.
  eapply Nat.lt_le_trans; [|exact L].
  eapply Nat.lt_le_trans; [|exact H]. repeat constructor.
Qed.


Lemma route_root : route registrations unknownHandler "." = unknownHandler.
Proof.
  unfold route, registrations. cbn [longest_match suffix_pattern].
  rewrite !root_matches_no_long_pattern; [reflexivity| | |];
    rewrite length_append; cbn; repeat apply le_n_S; apply Nat.le_0_l.
Qed.

(** ** The claims *)

(** C1. The CNAME-pit handler, on any query, with [N] the query name:
    it finishes, logs the query and hands exactly one message to the
    writer; that message has success status, its answer section is the
    single CNAME record owned by [N] with target ["q." ++ N], and its
    authority and additional sections are empty. *)
Theorem cnamePitHandler_response (w : dns.ResponseWriter) (q : dns.Msg) (st : World) :
  exists N m,
    qname q = Go.Done N
    /\ cnamePitHandler w q st
       = (Go.Done tt,
          mkWorld (now st)
            (trace st ++
             [(now st, Logged "query from %s for %q, handled by %s"
                         [dns.RemoteAddr w; N; "cnamePitHandler"]);
              (now st, Wrote w m)])%list)
    /\ dns.Rcode m = dns.RcodeSuccess
    /\ dns.Answer m
       = [dns.CNAME (dns.mkHdr N dns.TypeCNAME dns.ClassINET 0 0) ("q." ++ N)]
    /\ dns.Ns m = []
    /\ dns.Extra m = [].
Proof.
  destruct (qname_Done q) as [N HN].
  exists N. eexists. split; [exact HN|].
  split.
  - run_handler. rewrite HN. cbn [now trace]. rewrite <- app_assoc. reflexivity.
  - cbn. auto.
Qed.

(** C2. The many-cuts handler, on a query whose first question has the
    name [N]: it finishes and hands exactly one message to the writer;
    that message has success status, an empty answer section, an authority
    section with the single NS record owned by [N] with nameserver
    ["q." ++ N], and an additional section with the single A record owned
    by ["q." ++ N] whose address is the advertised IP of the [-ip] flag as
    [net.ParseIP] reads it. *)
Theorem manyCutsHandler_response (w : dns.ResponseWriter) (q : dns.Msg)
  (st : World) (q0 : dns.Q.t) (rest : list dns.Q.t) (N : string) :
  dns.Question q = q0 :: rest ->
  dns.Q.Name q0 = N ->
  exists m,
    qname q = Go.Done N
    /\ manyCutsHandler w q st
       = (Go.Done tt,
          mkWorld (now st)
            (trace st ++
             [(now st, Logged "query from %s for %q, handled by %s"
                         [dns.RemoteAddr w; N; "manyCutsHandler"]);
              (now st, Wrote w m)])%list)
    /\ dns.Rcode m = dns.RcodeSuccess
    /\ dns.Answer m = []
    /\ dns.Ns m
       = [dns.NS (dns.mkHdr N dns.TypeNS dns.ClassINET 0 0) ("q." ++ N)]
    /\ dns.Extra m
       = [dns.A (dns.mkHdr ("q." ++ N) dns.TypeA dns.ClassINET 0 0) (ParseIP ip)].
Proof.
  intros HQ HN. subst N.
  pose proof (qname_cons q q0 rest HQ) as Hq.
  eexists. split; [exact Hq|].
  split.
  - run_handler. rewrite Hq, HQ, index_0_cons. cbn [now trace].
    rewrite <- app_assoc. reflexivity.
  - cbn. auto.
Qed.

(** C3. The sleep handler on a query named [N] whose first label
    [strconv.ParseInt] rejects (it is then no signed decimal that fits in
    16 bits): the handler finishes, hands exactly one message to the
    writer, with success status and the single TXT record "failed to parse
    integer sleep time" as its answer, and does not sleep: the clock has
    not moved. *)
Theorem sleepHandler_parse_failure (w : dns.ResponseWriter) (q : dns.Msg)
  (st : World) (N label : string) (rest : list string) (v : Z) (e : strconv.Err) :
  qname q = Go.Done N ->
  strings.Split N "." = label :: rest ->
  strconv.ParseInt label 10 16 = (v, Some e) ->
  exists m,
    decimal_int16 label = None
    /\ sleepHandler w q st
       = (Go.Done tt,
          mkWorld (now st)
            (trace st ++
             [(now st, Logged "query from %s for %q, handled by %s"
                         [dns.RemoteAddr w; N; "sleepHandler"]);
              (now st, Wrote w m)])%list)
    /\ dns.Rcode m = dns.RcodeSuccess
    /\ dns.Answer m
       = [dns.TXT (dns.mkHdr N dns.TypeTXT dns.ClassINET 0 0)
            ["failed to parse integer sleep time"]]
    /\ dns.Ns m = []
    /\ dns.Extra m = []
    /\ sleeps (snd (sleepHandler w q st)) = sleeps st.
Proof.
  intros HN HS HP.
  pose proof (sleepHandler_run_error w q st N label rest v e HN HS HP) as R.
  eexists. split; [|split; [exact R|]].
  - pose proof (ParseInt_decimal_int16 label) as D.
    destruct (decimal_int16 label) as [k|]; [|reflexivity].
    rewrite HP in D. discriminate D.
  - rewrite R. cbn [snd]. rewrite sleeps_app. cbn.
    repeat split; auto. apply app_nil_r.
Qed.

(** C4. The sleep handler on a query named [N] whose first label
    [strconv.ParseInt] reads as the 16-bit integer [K] (the signed decimal
    the label writes), under a scheduler that keeps the promise of
    [time.Sleep] to pause for at least the duration asked: the handler
    finishes, sleeps once, for [K] milliseconds, and only then, at a time
    [t] at least [K] milliseconds after it started, hands its one message
    to the writer; the message has success status and empty answer,
    authority and additional sections.  This holds for every [K], so for
    [K >= 0]. *)
Theorem sleepHandler_delays_then_answers (w : dns.ResponseWriter) (q : dns.Msg)
  (st : World) (N label : string) (rest : list string) (K : Z) :
  (forall d, d <= pause d) ->
  qname q = Go.Done N ->
  strings.Split N "." = label :: rest ->
  strconv.ParseInt label 10 16 = (K, None) ->
  exists m t,
    decimal_int16 label = Some K
    /\ sleepHandler w q st
       = (Go.Done tt,
          mkWorld t
            (trace st ++
             [(now st, Logged "query from %s for %q, handled by %s"
                         [dns.RemoteAddr w; N; "sleepHandler"]);
              (now st, Slept (K * time.Millisecond));
              (t, Wrote w m)])%list)
    /\ now st + K * time.Millisecond <= t
    /\ dns.Rcode m = dns.RcodeSuccess
    /\ dns.Answer m = []
    /\ dns.Ns m = []
    /\ dns.Extra m = [].
Proof.
  intros Hpause HN HS HP.
  pose proof (sleepHandler_run_ok w q st N label rest K HN HS HP) as R.
  change time.Millisecond with 1000000.
  eexists. eexists. split; [|split; [exact R|]].
  - pose proof (ParseInt_decimal_int16 label) as D.
    destruct (decimal_int16 label) as [k|].
    + rewrite HP in D. now injection D as ->.
    + rewrite HP in D. now contradiction D.
  - split; [|cbn; auto].
    pose proof (Hpause (K * 1000000)). lia.
Qed.

(** C5. Each of the four handlers, on every query and in every world,
    hands to the writer only messages with the success status code. *)
Theorem core_handlers_status_success :
  Forall (writes_only (fun m => dns.Rcode m = dns.RcodeSuccess)) core_handlers.
Proof.
  unfold core_handlers. repeat constructor.
  - apply cnamePitHandler_writes. reflexivity.
  - apply manyCutsHandler_writes. reflexivity.
  - apply sleepHandler_writes; reflexivity.
  - apply unknownHandler_writes. reflexivity.
Qed.


(** C7. A query with no question section: its name is the root name
    ["."], the router hands it to the default handler, and that handler
    finishes with one message handed to the writer, of success status,
    whose answer is the diagnostic TXT record owned by the root name. *)
Theorem ServeDNS_no_question (w : dns.ResponseWriter) (q : dns.Msg) (st : World) :
  dns.Question q = [] ->
  exists m,
    qname q = Go.Done "."
    /\ ServeDNS w q st = unknownHandler w q st
    /\ unknownHandler w q st
       = (Go.Done tt,
          mkWorld (now st)
            (trace st ++
             [(now st, Logged "query from %s for %q, handled by %s"
                         [dns.RemoteAddr w; "."; "unknownHandler"]);
              (now st, Wrote w m)])%list)
    /\ dns.Rcode m = dns.RcodeSuccess
    /\ dns.Answer m
       = [dns.TXT (dns.mkHdr "." dns.TypeTXT dns.ClassINET 0 0)
            ["request did not match any known pattern."]]
    /\ dns.Ns m = []
    /\ dns.Extra m = [].
Proof.
  intros HQ. pose proof (qname_nil q HQ) as HN.
  eexists. split; [exact HN|]. split; [|split].
  - unfold ServeDNS, bind, lift. rewrite HN, route_root. reflexivity.
  - apply (unknownHandler_run w q st "." HN).
  - cbn. auto.
Qed.

(** C8. [qname] never fails: it returns the name of the first question
    when the question section is not empty, and the root name ["."] when
    it is. *)
Theorem qname_first_question_or_root (q : dns.Msg) :
  qname q = Go.Done (match dns.Question q with
                     | [] => "."
                     | q0 :: _ => dns.Q.Name q0
                     end).
Proof.
  destruct (dns.Question q) as [|q0 rest] eqn:E.
  - now apply qname_nil.
  - now apply (qname_cons q q0 rest).
Qed.

(** C9. The default handler, on any query, with [N] the query name: it
    finishes and hands exactly one message to the writer; that message has
    success status and its answer section is the single TXT record owned
    by [N] whose text is the diagnostic "request did not match any known
    pattern.", which is not empty. *)
Theorem unknownHandler_response (w : dns.ResponseWriter) (q : dns.Msg) (st : World) :
  exists N m,
    qname q = Go.Done N
    /\ unknownHandler w q st
       = (Go.Done tt,
          mkWorld (now st)
            (trace st ++
             [(now st, Logged "query from %s for %q, handled by %s"
                         [dns.RemoteAddr w; N; "unknownHandler"]);
              (now st, Wrote w m)])%list)
    /\ dns.Rcode m = dns.RcodeSuccess
    /\ dns.Answer m
       = [dns.TXT (dns.mkHdr N dns.TypeTXT dns.ClassINET 0 0)
            ["request did not match any known pattern."]]
    /\ "request did not match any known pattern." <> ""
    /\ dns.Ns m = []
    /\ dns.Extra m = [].
Proof.
  destruct (qname_Done q) as [N HN].
  exists N. eexists. split; [exact HN|].
  split.
  - run_handler. rewrite HN. cbn [now trace]. rewrite <- app_assoc. reflexivity.
  - cbn. repeat split; auto. discriminate.
Qed.

(** C10. Each of the four handlers, on every query (so whatever class the
    query asks for) and in every world, hands to the writer only messages
    whose records, over the answer, authority and additional sections, all
    carry the Internet class. *)
Theorem core_handlers_records_class_IN :
  Forall (writes_only (fun m => Forall class_IN (records m))) core_handlers.
Proof.
  unfold core_handlers, class_IN. repeat constructor.
  - apply cnamePitHandler_writes. intros. cbn. repeat constructor.
  - apply manyCutsHandler_writes. intros. cbn. repeat constructor.
  - apply sleepHandler_writes; intros; cbn; repeat constructor.
  - apply unknownHandler_writes. intros. cbn. repeat constructor.
Qed.

(** ** Beyond the claims *)

(** *** The shape of a run *)

Lemma cnamePitHandler_shape (w : dns.ResponseWriter) (q : dns.Msg) (N : string) :
  qname q = Go.Done N -> run_shape "cnamePitHandler" cnamePitHandler w q N.
Proof.
  intros HN. right. left. eexists. intros st.
  apply (cnamePitHandler_run w q st N HN).
Qed.

Lemma unknownHandler_shape (w : dns.ResponseWriter) (q : dns.Msg) (N : string) :
  qname q = Go.Done N -> run_shape "unknownHandler" unknownHandler w q N.
Proof.
  intros HN. right. left. eexists. intros st.
  apply (unknownHandler_run w q st N HN).
Qed.

Lemma manyCutsHandler_shape (w : dns.ResponseWriter) (q : dns.Msg) (N : string) :
  qname q = Go.Done N -> run_shape "manyCutsHandler" manyCutsHandler w q N.
Proof.
  intros HN. destruct (dns.Question q) as [|q0 rest] eqn:HQ.
  - left. split; [exact HQ|]. intros st.
    rewrite (qname_nil q HQ) in HN. injection HN as <-.
    apply (manyCutsHandler_run_no_question w q st HQ).
  - right. left. eexists. intros st.
    rewrite (qname_cons q q0 rest HQ) in HN. injection HN as <-.
    apply (manyCutsHandler_run w q st q0 rest HQ).
Qed.

Lemma sleepHandler_shape (w : dns.ResponseWriter) (q : dns.Msg) (N : string) :
  qname q = Go.Done N -> run_shape "sleepHandler" sleepHandler w q N.
Proof.
  intros HN. destruct (Split_dot_first N) as (label & rest & HS).
  destruct (strconv.ParseInt label 10 16) as [v [e|]] eqn:HI.
  - right. left. eexists. intros st.
    apply (sleepHandler_run_error w q st N label rest v e HN HS HI).
  - right. right. exists v. eexists.
    split; [apply (ParseInt_int16_range label v HI)|]. intros st.
    apply (sleepHandler_run_ok w q st N label rest v HN HS HI).
Qed.

Lemma handlers_shape :
  Forall (fun nh : string * Handler =>
            forall w q N, qname q = Go.Done N -> run_shape (fst nh) (snd nh) w q N)
    named_handlers.
Proof.
  unfold named_handlers.
  repeat apply Forall_cons; try apply Forall_nil; cbn [fst snd]; intros w q N HN.
  - now apply cnamePitHandler_shape.
  - now apply manyCutsHandler_shape.
  - now apply sleepHandler_shape.
  - now apply unknownHandler_shape.
Qed.

(** *** Logging and answering *)

(** X1. [txtError], for any query and any text: it finishes, logs
    nothing, does not move the clock and hands exactly one message to the
    writer; the message has success status and its only record is the TXT
    record owned by the query name whose text is the one string given,
    whatever it is. *)
Theorem txtError_response (w : dns.ResponseWriter) (q : dns.Msg)
  (errorMsg : string) (st : World) :
  exists N m,
    qname q = Go.Done N
    /\ txtError w q errorMsg st
       = (Go.Done tt, mkWorld (now st) (trace st ++ [(now st, Wrote w m)])%list)
    /\ dns.Rcode m = dns.RcodeSuccess
    /\ records m
       = [dns.TXT (dns.mkHdr N dns.TypeTXT dns.ClassINET 0 0) [errorMsg]].
Proof.
  destruct (qname_Done q) as [N HN]. exists N. eexists.
  split; [exact HN|]. split; [apply (txtError_run w q errorMsg st N HN)|].
  split; reflexivity.
Qed.

(** X2. Every handler starts by logging the query, with the peer's
    address, the query name and the handler's own name, also when it
    panics afterwards; it logs nothing else. *)
Theorem handlers_log_first_and_once :
  Forall (fun nh : string * Handler =>
            forall w q st, exists N es,
              qname q = Go.Done N
              /\ trace (snd (snd nh w q st))
                 = (trace st ++ (now st, log_line w N (fst nh)) :: es)%list
              /\ forallb (fun te => negb (is_log (snd te))) es = true)
    named_handlers.
Proof.
  eapply Forall_impl; [|apply handlers_shape].
  intros [name h] S w q st. cbn [fst snd] in *.
  destruct (qname_Done q) as [N HN]. exists N.
  destruct (S w q N HN) as [(_ & R) | [(m & R) | (K & m & _ & R)]];
    rewrite R; cbn [snd trace]; eexists; (split; [exact HN|]);
    (split; [reflexivity|]); reflexivity.
Qed.

(** X3. The CNAME-pit, sleep and default handlers never panic, whatever
    the query: each hands exactly one message to the writer it was given,
    and that is the last thing it does. *)
Theorem qname_handlers_answer_once :
  Forall (fun h : Handler =>
            forall w q st, exists es t m,
              h w q st
              = (Go.Done tt, mkWorld t (trace st ++ es ++ [(t, Wrote w m)])%list)
              /\ forallb (fun te => negb (is_write (snd te))) es = true)
    [cnamePitHandler; sleepHandler; unknownHandler].
Proof.
  repeat apply Forall_cons; try apply Forall_nil; intros w q st;
    destruct (qname_Done q) as [N HN].
  - rewrite (cnamePitHandler_run w q st N HN).
    eexists [_], _, _. split; reflexivity.
  - destruct (Split_dot_first N) as (label & rest & HS).
    destruct (strconv.ParseInt label 10 16) as [v [e|]] eqn:HI.
    + rewrite (sleepHandler_run_error w q st N label rest v e HN HS HI).
      eexists [_], _, _. split; reflexivity.
    + rewrite (sleepHandler_run_ok w q st N label rest v HN HS HI).
      eexists [_; _], _, _. split; reflexivity.
  - rewrite (unknownHandler_run w q st N HN).
    eexists [_], _, _. split; reflexivity.
Qed.

(** X4. The many-cuts handler finishes exactly on the queries that have a
    question, and then has handed one message to the writer; on the others
    it panics and has handed none. *)
Theorem manyCutsHandler_finishes_iff_question (w : dns.ResponseWriter)
  (q : dns.Msg) (st : World) :
  (fst (manyCutsHandler w q st) = Go.Done tt <-> dns.Question q <> [])
  /\ (fst (manyCutsHandler w q st) = Go.Panic (Go.IndexOutOfRange 0 0)
      <-> dns.Question q = [])
  /\ exists ms,
       responses (snd (manyCutsHandler w q st)) = (responses st ++ ms)%list
       /\ List.length ms = match dns.Question q with [] => 0%nat | _ :: _ => 1%nat end.
Proof.
  destruct (dns.Question q) as [|q0 rest] eqn:HQ.
  - rewrite (manyCutsHandler_run_no_question w q st HQ). cbn [fst snd].
    repeat split; try congruence; try discriminate.
    rewrite responses_app. exists []. split; reflexivity.
  - rewrite (manyCutsHandler_run w q st q0 rest HQ). cbn [fst snd].
    repeat split; try congruence; try discriminate.
    rewrite responses_app. eexists. split; reflexivity.
Qed.

(** X5. The CNAME-pit, many-cuts and default handlers never sleep and
    never move the clock, whatever the query. *)
Theorem other_handlers_never_sleep :
  Forall (fun h : Handler =>
            forall w q st,
              sleeps (snd (h w q st)) = sleeps st
              /\ now (snd (h w q st)) = now st)
    [cnamePitHandler; manyCutsHandler; unknownHandler].
Proof.
  repeat apply Forall_cons; try apply Forall_nil; intros w q st;
    destruct (qname_Done q) as [N HN].
  - rewrite (cnamePitHandler_run w q st N HN). cbn [snd now].
    rewrite sleeps_app. split; [apply app_nil_r | reflexivity].
  - destruct (dns.Question q) as [|q0 rest] eqn:HQ.
    + rewrite (manyCutsHandler_run_no_question w q st HQ). cbn [snd now].
      rewrite sleeps_app. split; [apply app_nil_r | reflexivity].
    + rewrite (manyCutsHandler_run w q st q0 rest HQ). cbn [snd now].
      rewrite sleeps_app. split; [apply app_nil_r | reflexivity].
  - rewrite (unknownHandler_run w q st N HN). cbn [snd now].
    rewrite sleeps_app. split; [apply app_nil_r | reflexivity].
Qed.

(** X6. The sleep handler calls [time.Sleep] at most once per query, and
    then for a whole number [K] of milliseconds with
    [-32768 <= K <= 32767]: the product [K * time.Millisecond] does not
    wrap around, and no query makes the handler ask for more than 32.767
    seconds. *)
Theorem sleepHandler_sleep_bounded (w : dns.ResponseWriter) (q : dns.Msg)
  (st : World) :
  exists ds,
    sleeps (snd (sleepHandler w q st)) = (sleeps st ++ ds)%list
    /\ (ds = []
        \/ exists K, ds = [K * time.Millisecond]
                     /\ -32768 <= K <= 32767
                     /\ time.mul K time.Millisecond = K * time.Millisecond).
Proof.
  destruct (qname_Done q) as [N HN].
  destruct (Split_dot_first N) as (label & rest & HS).
  destruct (strconv.ParseInt label 10 16) as [v [e|]] eqn:HI.
  - rewrite (sleepHandler_run_error w q st N label rest v e HN HS HI).
    cbn [snd]. rewrite sleeps_app. exists []. split; [reflexivity | now left].
  - rewrite (sleepHandler_run_ok w q st N label rest v HN HS HI).
    pose proof (ParseInt_int16_range label v HI) as R.
    cbn [snd]. rewrite sleeps_app. eexists. split; [reflexivity|].
    right. exists v. change time.Millisecond with 1000000.
    repeat split; try lia. apply (mul_Millisecond_int16 v R).
Qed.

(** *** Edges of the sleep handler *)

(** X7. The sleep handler on a query with no question: the name is the
    root name, its first label is empty and does not parse, so the handler
    answers at once with the TXT record "failed to parse integer sleep
    time" owned by ["."], and does not sleep. *)
Theorem sleepHandler_no_question (w : dns.ResponseWriter) (q : dns.Msg)
  (st : World) :
  dns.Question q = [] ->
  exists m,
    sleepHandler w q st
    = (Go.Done tt,
       mkWorld (now st)
         (trace st ++
          [(now st, log_line w "." "sleepHandler"); (now st, Wrote w m)])%list)
    /\ dns.Rcode m = dns.RcodeSuccess
    /\ records m
       = [dns.TXT (dns.mkHdr "." dns.TypeTXT dns.ClassINET 0 0)
            ["failed to parse integer sleep time"]].
Proof.
  intros HQ. eexists. split.
  - apply (sleepHandler_run_error w q st "." "" [""] 0 strconv.ErrSyntax
             (qname_nil q HQ) eq_refl eq_refl).
  - split; reflexivity.
Qed.

(** X8. A first label that writes a signed decimal number outside
    [-32768, 32767] is refused like any text that is no number: the sleep
    handler answers with the TXT record "failed to parse integer sleep
    time" and does not sleep, however large the number. *)
Theorem sleepHandler_out_of_range (w : dns.ResponseWriter) (q : dns.Msg)
  (st : World) (N label : string) (rest : list string) (k : Z) :
  qname q = Go.Done N ->
  strings.Split N "." = label :: rest ->
  signed_decimal label = Some k ->
  k < -32768 \/ 32767 < k ->
  exists m,
    sleepHandler w q st
    = (Go.Done tt,
       mkWorld (now st)
         (trace st ++
          [(now st, log_line w N "sleepHandler"); (now st, Wrote w m)])%list)
    /\ records m
       = [dns.TXT (dns.mkHdr N dns.TypeTXT dns.ClassINET 0 0)
            ["failed to parse integer sleep time"]].
Proof.
  intros HN HS HD HK.
  pose proof (ParseInt_decimal_int16 label) as P.
  unfold decimal_int16 in P. rewrite HD, (int16_test_false k HK) in P.
  destruct (strconv.ParseInt label 10 16) as [v [e|]] eqn:HI;
    [|now contradiction P].
  eexists. split.
  - apply (sleepHandler_run_error w q st N label rest v e HN HS HI).
  - reflexivity.
Qed.


(** *** What decides the answer *)



(** *** The records the handlers build *)

Lemma substring_all (s : string) : substring 0 (String.length s) s = s.
Proof. induction s as [|c s IH]; cbn; [reflexivity | now rewrite IH]. Qed.

Lemma prepend_q_points_further (N : string) :
  String.length ("q." ++ N) = (2 + String.length N)%nat
  /\ "q." ++ N <> N
  /\ strings.HasSuffix ("q." ++ N) N = true.
Proof.
  assert (L : String.length ("q." ++ N) = (2 + String.length N)%nat) by reflexivity.
  split; [exact L|]. split.
  - intros E. rewrite E in L. lia.
  - unfold strings.HasSuffix. rewrite L.
    replace (2 + String.length N - String.length N)%nat with 2%nat by lia.
    replace (String.length N <=? 2 + String.length N)%nat with true
      by (symmetry; apply Nat.leb_le; lia).
    cbn [append substring andb]. rewrite substring_all. apply String.eqb_refl.
Qed.

(** X11. Every CNAME and NS record that any handler hands to the writer
    leads on: the name it points to is its owner with two more bytes in
    front, hence never the owner itself, and has the owner as a suffix, so
    the chase stays under the name that was asked. *)
Theorem handlers_records_point_further :
  Forall (writes_only (fun m => Forall points_further (records m))) core_handlers.
Proof.
  unfold core_handlers. repeat apply Forall_cons; try apply Forall_nil.
  - apply cnamePitHandler_writes. intros q N. cbn.
    constructor; [apply prepend_q_points_further | constructor].
  - apply manyCutsHandler_writes. intros q N a. cbn.
    constructor; [apply prepend_q_points_further|].
    constructor; [exact I | constructor].
  - apply sleepHandler_writes.
    + intros q N msg. cbn. constructor; [exact I | constructor].
    + intros q. cbn. constructor.
  - apply unknownHandler_writes. intros q N msg. cbn.
    constructor; [exact I | constructor].
Qed.

(** X12. Every referral is complete: in each message a handler hands to
    the writer, the nameserver of every NS record of the authority section
    has its A record in the additional section. *)
Theorem handlers_referrals_have_glue :
  Forall (writes_only has_glue) core_handlers.
Proof.
  unfold core_handlers, has_glue.
  repeat apply Forall_cons; try apply Forall_nil.
  - apply cnamePitHandler_writes. intros q N h ns [].
  - apply manyCutsHandler_writes. intros q N a h ns. cbn.
    intros [E | []]. injection E as _ <-.
    eexists. exists a. split; [left; reflexivity | reflexivity].
  - apply sleepHandler_writes; [intros q N msg h ns [] | intros q h ns []].
  - apply unknownHandler_writes. intros q N msg h ns [].
Qed.

(** X13. Every record that any handler hands to the writer has a TTL of
    zero (the handlers never set one), and a data length of zero. *)
Theorem handlers_records_ttl_zero :
  Forall (writes_only
            (fun m => Forall (fun r => dns.Ttl (dns.Header r) = 0
                                       /\ dns.Rdlength (dns.Header r) = 0)
                        (records m)))
    core_handlers.
Proof.
  unfold core_handlers. repeat apply Forall_cons; try apply Forall_nil.
  - apply cnamePitHandler_writes. intros. cbn. repeat constructor.
  - apply manyCutsHandler_writes. intros. cbn. repeat constructor.
  - apply sleepHandler_writes; intros; cbn; repeat constructor.
  - apply unknownHandler_writes. intros. cbn. repeat constructor.
Qed.

(** X14. In every record that any handler hands to the writer, the type
    code of the header is the one of the record's Go type: a [dns.CNAME]
    says CNAME, a [dns.NS] says NS, a [dns.A] says A, a [dns.TXT] says
    TXT. *)
Theorem handlers_records_type_tag :
  Forall (writes_only
            (fun m => Forall (fun r => dns.Rrtype (dns.Header r) = kind_tag r)
                        (records m)))
    core_handlers.
Proof.
  unfold core_handlers. repeat apply Forall_cons; try apply Forall_nil.
  - apply cnamePitHandler_writes. intros. cbn. repeat constructor.
  - apply manyCutsHandler_writes. intros. cbn. repeat constructor.
  - apply sleepHandler_writes; intros; cbn; repeat constructor.
  - apply unknownHandler_writes. intros. cbn. repeat constructor.
Qed.

(** *** No state between requests *)

(** X15. A handler keeps no state and only adds to the trace: for a given
    writer and query, how it ends and the events it adds, in order, are the
    same in every world it starts from, and the events that were there
    stay. *)
Theorem handlers_stateless_append_only :
  Forall (fun h : Handler =>
            forall w q, exists out events,
              forall st,
                fst (h w q st) = out
                /\ exists stamps,
                     trace (snd (h w q st)) = (trace st ++ combine stamps events)%list
                     /\ List.length stamps = List.length events)
    core_handlers.
Proof.
  change core_handlers with (map snd named_handlers).
  apply Forall_map. eapply Forall_impl; [|apply handlers_shape].
  intros [name h] S w q. cbn [fst snd] in *.
  destruct (qname_Done q) as [N HN].
  destruct (S w q N HN) as [(_ & R) | [(m & R) | (K & m & _ & R)]].
  - exists (Go.Panic (Go.IndexOutOfRange 0 0)), [log_line w N name].
    intros st. rewrite R. split; [reflexivity|].
    exists [now st]. split; reflexivity.
  - exists (Go.Done tt), [log_line w N name; Wrote w m].
    intros st. rewrite R. split; [reflexivity|].
    exists [now st; now st]. split; reflexivity.
  - exists (Go.Done tt), [log_line w N name; Slept (K * 1000000); Wrote w m].
    intros st. rewrite R. split; [reflexivity|].
    exists [now st; now st; now st + pause (K * 1000000)]. split; reflexivity.
Qed.

(** *** More on the sleep and CNAME-pit handlers *)

(** X16. What the sleep handler sleeps, in arithmetic: when the first
    label of the name writes a signed decimal [K] that fits in 16 bits
    (an optional sign, then decimal digits), one sleep of [K] milliseconds;
    otherwise none. *)
Theorem sleepHandler_sleeps_decimal (w : dns.ResponseWriter) (q : dns.Msg)
  (st : World) (N label : string) (rest : list string) :
  qname q = Go.Done N ->
  strings.Split N "." = label :: rest ->
  sleeps (snd (sleepHandler w q st))
  = (sleeps st ++
     match decimal_int16 label with
     | Some K => [K * time.Millisecond]
     | None => []
     end)%list.
Proof.
  intros HN HS. pose proof (ParseInt_decimal_int16 label) as P.
  destruct (decimal_int16 label) as [K|].
  - rewrite (sleepHandler_run_ok w q st N label rest K HN HS P).
    cbn [snd]. now rewrite sleeps_app.
  - destruct (strconv.ParseInt label 10 16) as [v [e|]] eqn:HI;
      [|now contradiction P].
    rewrite (sleepHandler_run_error w q st N label rest v e HN HS HI).
    cbn [snd]. now rewrite sleeps_app.
Qed.

(** X17. A sleep time of zero or less is not refused: when the first
    label reads as [K <= 0] and [time.Sleep] returns at once for such a
    duration, the sleep handler calls it all the same, the clock does not
    move, and the handler hands its bare success reply to the writer. *)
Theorem sleepHandler_no_delay_when_not_positive (w : dns.ResponseWriter)
  (q : dns.Msg) (st : World) (N label : string) (rest : list string) (K : Z) :
  (forall d, d <= 0 -> pause d = 0) ->
  qname q = Go.Done N ->
  strings.Split N "." = label :: rest ->
  strconv.ParseInt label 10 16 = (K, None) ->
  K <= 0 ->
  exists m,
    sleepHandler w q st
    = (Go.Done tt,
       mkWorld (now st)
         (trace st ++
          [(now st, log_line w N "sleepHandler");
           (now st, Slept (K * time.Millisecond));
           (now st, Wrote w m)])%list)
    /\ dns.Rcode m = dns.RcodeSuccess
    /\ records m = [].
Proof.
  intros Hpause HN HS HI HK.
  pose proof (sleepHandler_run_ok w q st N label rest K HN HS HI) as R.
  rewrite (Hpause (K * 1000000)) in R by lia.
  rewrite Z.add_0_r in R.
  eexists. split; [exact R|]. split; reflexivity.
Qed.

(** X18. The CNAME-pit handler on a query with no question does not
    fail: it takes the root name for the query name and answers with the
    CNAME record owned by ["."] whose target is ["q.."]. *)
Theorem cnamePitHandler_no_question (w : dns.ResponseWriter) (q : dns.Msg)
  (st : World) :
  dns.Question q = [] ->
  exists m,
    cnamePitHandler w q st
    = (Go.Done tt,
       mkWorld (now st)
         (trace st ++
          [(now st, log_line w "." "cnamePitHandler"); (now st, Wrote w m)])%list)
    /\ dns.Rcode m = dns.RcodeSuccess
    /\ records m
       = [dns.CNAME (dns.mkHdr "." dns.TypeCNAME dns.ClassINET 0 0) "q.."].
Proof.
  intros HQ. eexists. split.
  - apply (cnamePitHandler_run w q st "." (qname_nil q HQ)).
  - split; reflexivity.
Qed.

End Awful.

(** ** The end-to-end examples of the spec

    Base domain [example.com], advertised IP 127.0.0.1, a punctual
    scheduler. *)

Example ParseInt_samples :
  map (fun s => strconv.ParseInt s 10 16)
    ["0"; "007"; "+7"; "-0"; "32767"; "32768"; "-32768"; "-32769";
     ""; "-"; "1_0"; "12a"; " 1"; "99999x"]
  = [(0, None); (7, None); (7, None); (0, None); (32767, None);
     (32767, Some strconv.ErrRange); (-32768, None);
     (-32768, Some strconv.ErrRange);
     (0, Some strconv.ErrSyntax); (0, Some strconv.ErrSyntax);
     (0, Some strconv.ErrSyntax); (0, Some strconv.ErrSyntax);
     (0, Some strconv.ErrSyntax); (32767, Some strconv.ErrRange)].
Proof. reflexivity. Qed.

Example Split_samples :
  strings.Split "5.sleep.example.com." "." = ["5"; "sleep"; "example"; "com"; ""]
  /\ strings.Split "." "." = [""; ""]
  /\ strings.Split "" "." = [""]
  /\ strings.Split "a..b" "." = ["a"; ""; "b"].
Proof. repeat split. Qed.

Example sleep_5_ms :
  exists m,
    ServeDNS "127.0.0.1" "example.com" ParseIP_loopback punctual sample_writer
      (sample_query "5.sleep.example.com") sample_world
    = (Go.Done tt,
       mkWorld 5001000
         [(1000, Logged "query from %s for %q, handled by %s"
                   ["192.0.2.7:40000"; "5.sleep.example.com"; "sleepHandler"]);
          (1000, Slept 5000000);
          (5001000, Wrote sample_writer m)])
    /\ dns.Rcode m = dns.RcodeSuccess
    /\ records m = [].
Proof. eexists. split; [lazy; reflexivity|]. split; reflexivity. Qed.

Example cnamepit_chain :
  responses
    (snd (ServeDNS "127.0.0.1" "example.com" ParseIP_loopback punctual
            sample_writer (sample_query "cnamepit.example.com") sample_world))
  = [dns.set_Answer
       (dns.SetRcode dns.new_Msg (sample_query "cnamepit.example.com")
          dns.RcodeSuccess)
       [dns.CNAME
          (dns.mkHdr "cnamepit.example.com" dns.TypeCNAME dns.ClassINET 0 0)
          "q.cnamepit.example.com"]].
Proof. reflexivity. Qed.

Example manycuts_referral :
  map records
    (responses
       (snd (ServeDNS "127.0.0.1" "example.com" ParseIP_loopback punctual
               sample_writer (sample_query "manycuts.example.com") sample_world)))
  = [[dns.NS
        (dns.mkHdr "manycuts.example.com" dns.TypeNS dns.ClassINET 0 0)
        "q.manycuts.example.com";
      dns.A
        (dns.mkHdr "q.manycuts.example.com" dns.TypeA dns.ClassINET 0 0)
        (Some [0; 0; 0; 0; 0; 0; 0; 0; 0; 0; 255; 255; 127; 0; 0; 1])]].
Proof. reflexivity. Qed.

Example foo_bar_unknown :
  map records
    (responses
       (snd (ServeDNS "127.0.0.1" "example.com" ParseIP_loopback punctual
               sample_writer (sample_query "foo.bar") sample_world)))
  = [[dns.TXT (dns.mkHdr "foo.bar" dns.TypeTXT dns.ClassINET 0 0)
        ["request did not match any known pattern."]]].
Proof. reflexivity. Qed.

(** ** The theorems at sample inputs *)

(** C2 at the query for [manycuts.example.com.], advertised IP
    127.0.0.1. *)
Lemma manyCutsHandler_response_witness :
  dns.Question (sample_query "manycuts.example.com.")
  = [dns.Q.mk "manycuts.example.com." 1 3]
  /\ dns.Q.Name (dns.Q.mk "manycuts.example.com." 1 3) = "manycuts.example.com."
  /\ exists m,
       qname (sample_query "manycuts.example.com.")
       = Go.Done "manycuts.example.com."
       /\ manyCutsHandler "127.0.0.1" ParseIP_loopback sample_writer
            (sample_query "manycuts.example.com.") sample_world
          = (Go.Done tt,
             mkWorld (now sample_world)
               (trace sample_world ++
                [(now sample_world,
                  Logged "query from %s for %q, handled by %s"
                    [dns.RemoteAddr sample_writer; "manycuts.example.com.";
                     "manyCutsHandler"]);
                 (now sample_world, Wrote sample_writer m)])%list)
       /\ dns.Rcode m = dns.RcodeSuccess
       /\ dns.Answer m = []
       /\ dns.Ns m
          = [dns.NS
               (dns.mkHdr "manycuts.example.com." dns.TypeNS dns.ClassINET 0 0)
               ("q." ++ "manycuts.example.com.")]
       /\ dns.Extra m
          = [dns.A
               (dns.mkHdr ("q." ++ "manycuts.example.com.") dns.TypeA
                  dns.ClassINET 0 0)
               (ParseIP_loopback "127.0.0.1")].
Proof.
  split; [reflexivity|]. split; [reflexivity|].
  exact (manyCutsHandler_response "127.0.0.1" ParseIP_loopback sample_writer
           (sample_query "manycuts.example.com.") sample_world
           (dns.Q.mk "manycuts.example.com." 1 3) [] "manycuts.example.com."
           eq_refl eq_refl).
Defined.

(** C3 at the query for [soon.sleep.example.com.]. *)
Lemma sleepHandler_parse_failure_witness :
  qname (sample_query "soon.sleep.example.com.")
  = Go.Done "soon.sleep.example.com."
  /\ strings.Split "soon.sleep.example.com." "."
     = "soon" :: ["sleep"; "example"; "com"; ""]
  /\ strconv.ParseInt "soon" 10 16 = (0, Some strconv.ErrSyntax)
  /\ exists m,
       decimal_int16 "soon" = None
       /\ sleepHandler punctual sample_writer
            (sample_query "soon.sleep.example.com.") sample_world
          = (Go.Done tt,
             mkWorld (now sample_world)
               (trace sample_world ++
                [(now sample_world,
                  Logged "query from %s for %q, handled by %s"
                    [dns.RemoteAddr sample_writer; "soon.sleep.example.com.";
                     "sleepHandler"]);
                 (now sample_world, Wrote sample_writer m)])%list)
       /\ dns.Rcode m = dns.RcodeSuccess
       /\ dns.Answer m
          = [dns.TXT
               (dns.mkHdr "soon.sleep.example.com." dns.TypeTXT dns.ClassINET 0 0)
               ["failed to parse integer sleep time"]]
       /\ dns.Ns m = []
       /\ dns.Extra m = []
       /\ sleeps (snd (sleepHandler punctual sample_writer
                         (sample_query "soon.sleep.example.com.") sample_world))
          = sleeps sample_world.
Proof.
  split; [reflexivity|]. split; [reflexivity|]. split; [reflexivity|].
  exact (sleepHandler_parse_failure punctual sample_writer
           (sample_query "soon.sleep.example.com.") sample_world
           "soon.sleep.example.com." "soon" ["sleep"; "example"; "com"; ""]
           0 strconv.ErrSyntax eq_refl eq_refl eq_refl).
Defined.

(** C4 at the query for [5.sleep.example.com.], with a punctual
    scheduler. *)
Lemma sleepHandler_delays_then_answers_witness :
  (forall d, d <= punctual d)
  /\ qname (sample_query "5.sleep.example.com.") = Go.Done "5.sleep.example.com."
  /\ strings.Split "5.sleep.example.com." "."
     = "5" :: ["sleep"; "example"; "com"; ""]
  /\ strconv.ParseInt "5" 10 16 = (5, None)
  /\ exists m t,
       decimal_int16 "5" = Some 5
       /\ sleepHandler punctual sample_writer
            (sample_query "5.sleep.example.com.") sample_world
          = (Go.Done tt,
             mkWorld t
               (trace sample_world ++
                [(now sample_world,
                  Logged "query from %s for %q, handled by %s"
                    [dns.RemoteAddr sample_writer; "5.sleep.example.com.";
                     "sleepHandler"]);
                 (now sample_world, Slept (5 * time.Millisecond));
                 (t, Wrote sample_writer m)])%list)
       /\ now sample_world + 5 * time.Millisecond <= t
       /\ dns.Rcode m = dns.RcodeSuccess
       /\ dns.Answer m = []
       /\ dns.Ns m = []
       /\ dns.Extra m = [].
Proof.
  assert (P : forall d, d <= punctual d) by (intros d; unfold punctual; lia).
  split; [exact P|]. split; [reflexivity|]. split; [reflexivity|].
  split; [reflexivity|].
  exact (sleepHandler_delays_then_answers punctual sample_writer
           (sample_query "5.sleep.example.com.") sample_world
           "5.sleep.example.com." "5" ["sleep"; "example"; "com"; ""] 5
           P eq_refl eq_refl eq_refl).
Defined.



(** C7 at the query with no question, base domain [example.com]. *)
Lemma ServeDNS_no_question_witness :
  dns.Question empty_query = []
  /\ exists m,
       qname empty_query = Go.Done "."
       /\ ServeDNS "127.0.0.1" "example.com" ParseIP_loopback punctual
            sample_writer empty_query sample_world
          = unknownHandler sample_writer empty_query sample_world
       /\ unknownHandler sample_writer empty_query sample_world
          = (Go.Done tt,
             mkWorld (now sample_world)
               (trace sample_world ++
                [(now sample_world,
                  Logged "query from %s for %q, handled by %s"
                    [dns.RemoteAddr sample_writer; "."; "unknownHandler"]);
                 (now sample_world, Wrote sample_writer m)])%list)
       /\ dns.Rcode m = dns.RcodeSuccess
       /\ dns.Answer m
          = [dns.TXT (dns.mkHdr "." dns.TypeTXT dns.ClassINET 0 0)
               ["request did not match any known pattern."]]
       /\ dns.Ns m = []
       /\ dns.Extra m = [].
Proof.
  split; [reflexivity|].
  exact (ServeDNS_no_question "127.0.0.1" "example.com" ParseIP_loopback
           punctual sample_writer empty_query sample_world eq_refl).
Defined.

(** ** The further properties at sample inputs *)

(** X7 at the query with no question. *)
Lemma sleepHandler_no_question_witness :
  dns.Question empty_query = []
  /\ exists m,
       sleepHandler punctual sample_writer empty_query sample_world
       = (Go.Done tt,
          mkWorld (now sample_world)
            (trace sample_world ++
             [(now sample_world, log_line sample_writer "." "sleepHandler");
              (now sample_world, Wrote sample_writer m)])%list)
       /\ dns.Rcode m = dns.RcodeSuccess
       /\ records m
          = [dns.TXT (dns.mkHdr "." dns.TypeTXT dns.ClassINET 0 0)
               ["failed to parse integer sleep time"]].
Proof.
  split; [reflexivity|].
  exact (sleepHandler_no_question punctual sample_writer empty_query
           sample_world eq_refl).
Defined.

(** X8 at the query for [40000.sleep.example.com.]. *)
Lemma sleepHandler_out_of_range_witness :
  qname (sample_query "40000.sleep.example.com.")
  = Go.Done "40000.sleep.example.com."
  /\ strings.Split "40000.sleep.example.com." "."
     = "40000" :: ["sleep"; "example"; "com"; ""]
  /\ signed_decimal "40000" = Some 40000
  /\ (40000 < -32768 \/ 32767 < 40000)
  /\ exists m,
       sleepHandler punctual sample_writer
         (sample_query "40000.sleep.example.com.") sample_world
       = (Go.Done tt,
          mkWorld (now sample_world)
            (trace sample_world ++
             [(now sample_world,
               log_line sample_writer "40000.sleep.example.com." "sleepHandler");
              (now sample_world, Wrote sample_writer m)])%list)
       /\ records m
          = [dns.TXT
               (dns.mkHdr "40000.sleep.example.com." dns.TypeTXT dns.ClassINET 0 0)
               ["failed to parse integer sleep time"]].
Proof.
  assert (R : 40000 < -32768 \/ 32767 < 40000) by (right; lia).
  split; [reflexivity|]. split; [reflexivity|]. split; [reflexivity|].
  split; [exact R|].
  exact (sleepHandler_out_of_range punctual sample_writer
           (sample_query "40000.sleep.example.com.") sample_world
           "40000.sleep.example.com." "40000" ["sleep"; "example"; "com"; ""]
           40000 eq_refl eq_refl eq_refl R).
Defined.



(** X16 at the query for [+12.sleep.example.com.]. *)
Lemma sleepHandler_sleeps_decimal_witness :
  qname (sample_query "+12.sleep.example.com.") = Go.Done "+12.sleep.example.com."
  /\ strings.Split "+12.sleep.example.com." "."
     = "+12" :: ["sleep"; "example"; "com"; ""]
  /\ sleeps (snd (sleepHandler punctual sample_writer
                    (sample_query "+12.sleep.example.com.") sample_world))
     = (sleeps sample_world ++
        match decimal_int16 "+12" with
        | Some K => [K * time.Millisecond]
        | None => []
        end)%list.
Proof.
  split; [reflexivity|]. split; [reflexivity|].
  exact (sleepHandler_sleeps_decimal punctual sample_writer
           (sample_query "+12.sleep.example.com.") sample_world
           "+12.sleep.example.com." "+12" ["sleep"; "example"; "com"; ""]
           eq_refl eq_refl).
Defined.

(** X17 at the query for [-5.sleep.example.com.], with a punctual
    scheduler. *)
Lemma sleepHandler_no_delay_when_not_positive_witness :
  (forall d, d <= 0 -> punctual d = 0)
  /\ qname (sample_query "-5.sleep.example.com.") = Go.Done "-5.sleep.example.com."
  /\ strings.Split "-5.sleep.example.com." "."
     = "-5" :: ["sleep"; "example"; "com"; ""]
  /\ strconv.ParseInt "-5" 10 16 = (-5, None)
  /\ -5 <= 0
  /\ exists m,
       sleepHandler punctual sample_writer
         (sample_query "-5.sleep.example.com.") sample_world
       = (Go.Done tt,
          mkWorld (now sample_world)
            (trace sample_world ++
             [(now sample_world,
               log_line sample_writer "-5.sleep.example.com." "sleepHandler");
              (now sample_world, Slept (-5 * time.Millisecond));
              (now sample_world, Wrote sample_writer m)])%list)
       /\ dns.Rcode m = dns.RcodeSuccess
       /\ records m = [].
Proof.
  assert (P : forall d, d <= 0 -> punctual d = 0)
    by (intros d Hd; unfold punctual; lia).
  assert (L : -5 <= 0) by lia.
  split; [exact P|]. split; [reflexivity|]. split; [reflexivity|].
  split; [reflexivity|]. split; [exact L|].
  exact (sleepHandler_no_delay_when_not_positive punctual sample_writer
           (sample_query "-5.sleep.example.com.") sample_world
           "-5.sleep.example.com." "-5" ["sleep"; "example"; "com"; ""] (-5)
           P eq_refl eq_refl eq_refl L).
Defined.

(** X18 at the query with no question. *)
Lemma cnamePitHandler_no_question_witness :
  dns.Question empty_query = []
  /\ exists m,
       cnamePitHandler sample_writer empty_query sample_world
       = (Go.Done tt,
          mkWorld (now sample_world)
            (trace sample_world ++
             [(now sample_world, log_line sample_writer "." "cnamePitHandler");
              (now sample_world, Wrote sample_writer m)])%list)
       /\ dns.Rcode m = dns.RcodeSuccess
       /\ records m
          = [dns.CNAME (dns.mkHdr "." dns.TypeCNAME dns.ClassINET 0 0) "q.."].
Proof.
  split; [reflexivity|].
  exact (cnamePitHandler_no_question sample_writer empty_query sample_world
           eq_refl).
Defined.
